(** * exhale/utils.py: kind classification, specification mappings,
      console helpers and the fatal error reporter

    A shallow embedding of [src/exhale/utils.py].  Python values are an
    inductive type, dictionaries are finite maps, raised exceptions are an
    explicit [Raises] outcome, and the module globals of [configs] are a
    record passed to every operation that reads them. *)

From Stdlib Require Import ZArith NArith Ascii String.
From stdpp Require Import gmap strings list fin_maps.

Local Open Scope string_scope.
Local Open Scope list_scope.
Local Open Scope stdpp_scope.

(** ** Python values, exceptions and outcomes *)

(** The values that cross the interfaces of this module.  [VStr] is the
    only constructor whose [type(...)] is [str]. *)
Inductive pyval :=
| VNone
| VBool (b : bool)
| VInt (z : Z)
| VStr (s : string)
| VList (l : list string).

#[global] Instance pyval_eq_dec : EqDecision pyval.
Proof. solve_decision. Defined.

#[global] Instance pyval_countable : Countable pyval.
Proof.
  refine (inj_countable'
    (λ v, match v with
          | VNone => inl ()
          | VBool b => inr (inl b)
          | VInt z => inr (inr (inl z))
          | VStr s => inr (inr (inr (inl s)))
          | VList l => inr (inr (inr (inr l)))
          end)
    (λ x, match x with
          | inl () => VNone
          | inr (inl b) => VBool b
          | inr (inr (inl z)) => VInt z
          | inr (inr (inr (inl s))) => VStr s
          | inr (inr (inr (inr l))) => VList l
          end) _).
  by intros [].
Defined.

(** [type(v) is str] *)
Definition is_str (v : pyval) : bool :=
  match v with VStr _ => true | _ => false end.

(** A raised exception, as far as this module can observe it: the name of
    its class, whether that class derives from [Exception] (so that
    [except Exception] catches it; [SystemExit], [KeyboardInterrupt] and
    [GeneratorExit] do not), and the text ["{0}".format(e)] renders. *)
Record exc := Exc {
  exc_class : string;
  exc_is_Exception : bool;
  exc_str : string
}.

Definition ValueError (msg : string) : exc := Exc "ValueError" true msg.
Definition RuntimeError (msg : string) : exc := Exc "RuntimeError" true msg.

(** What a call does: it returns a value or raises. *)
Inductive outcome (E A : Type) :=
| Returns (a : A)
| Raises (e : E).
Arguments Returns {E A} a.
Arguments Raises {E A} e.

(** A Python dictionary, as a finite map on values. *)
Abbreviation dict := (gmap pyval pyval).

(** ** The globals of [configs] read by this module *)

Record configs := {
  _closure_map_sanity_check : pyval;
  customSpecificationsMapping : option dict;
  doxygenOutputDirectory : string;
  alwaysColorize : bool;
  verboseBuild : bool
}.

(** ** Kinds *)

Definition AVAILABLE_KINDS : list string :=
  [ "class"; "struct"; "function"; "enum"; "enumvalue"; "namespace";
    "define"; "typedef"; "variable"; "file"; "dir"; "group"; "union" ].

(** ** makeCustomSpecificationsMapping *)

(** The argument of [makeCustomSpecificationsMapping].  [Function f] is an
    instance of [types.FunctionType] ([def] or [lambda]) whose call on a
    kind has outcome [f kind]; [Object ty call] is any other object, with
    [ty] the rendering of [type(obj)] and [call] its behaviour when called,
    if it is callable at all. *)
Inductive pyobj :=
| Function (f : string → outcome exc pyval)
| Object (ty : string) (call : option (string → outcome exc pyval)).

Definition not_a_function_msg (ty : string) : string :=
  "The input to exhale.util.makeCustomSpecificationsMapping was *NOT* a function: " +:+ ty.

Definition not_a_string_msg (kind : string) : string :=
  "The custom specifications function did not return a string for input `"
    +:+ kind +:+ "`".

Definition unable_msg (e : string) : string :=
  "Unable to create custom specifications:" +:+ String "010"%char e.

(** The body of the [for kind in AVAILABLE_KINDS] loop, run over the kinds
    still to visit.  [calls] lists the kinds [func] has been invoked on so
    far and [ret] is the dictionary being filled. *)
Fixpoint fill_kinds (func : string → outcome exc pyval) (kinds : list string)
    (calls : list string) (ret : dict) : list string * outcome exc dict :=
  match kinds with
  | [] => (calls, Returns ret)
  | kind :: rest =>
      match func kind with
      | Raises e => (calls ++ [kind], Raises e)
      | Returns specs =>
          if is_str specs
          then fill_kinds func rest (calls ++ [kind]) (<[VStr kind := specs]> ret)
          else (calls ++ [kind], Raises (RuntimeError (not_a_string_msg kind)))
      end
  end.

(** [try: ... except Exception as e: raise RuntimeError(...)] *)
Definition wrap_exceptions {A} (r : outcome exc A) : outcome exc A :=
  match r with
  | Returns a => Returns a
  | Raises e =>
      if exc_is_Exception e
      then Raises (RuntimeError (unable_msg (exc_str e)))
      else Raises e
  end.

(** The result pairs the list of kinds on which the argument was invoked,
    in order, with the outcome of the call. *)
Definition makeCustomSpecificationsMapping (cfg : configs) (func : pyobj)
    : list string * outcome exc dict :=
  match func with
  | Object ty _ => ([], Raises (ValueError (not_a_function_msg ty)))
  | Function f =>
      let ret : dict :=
        {[ _closure_map_sanity_check cfg := _closure_map_sanity_check cfg ]} in
      let '(calls, r) := fill_kinds f AVAILABLE_KINDS [] ret in
      (calls, wrap_exceptions r)
  end.

(** ** Text primitives of the Python runtime used by the module

    A [string] is read as a sequence of code points below 256.  Case
    mapping acts on the ASCII letters and leaves every other character
    unchanged. *)

Definition code (c : ascii) : N := Ascii.N_of_ascii c.

Definition upper_char (c : ascii) : ascii :=
  if (97 <=? code c)%N && (code c <=? 122)%N
  then Ascii.ascii_of_N (code c - 32) else c.

Definition lower_char (c : ascii) : ascii :=
  if (65 <=? code c)%N && (code c <=? 90)%N
  then Ascii.ascii_of_N (code c + 32) else c.

Fixpoint lower (s : string) : string :=
  match s with
  | EmptyString => EmptyString
  | String c rest => String (lower_char c) (lower rest)
  end.

(** [str.capitalize]: the first character upper-cased, all the others
    lower-cased. *)
Definition capitalize (s : string) : string :=
  match s with
  | EmptyString => EmptyString
  | String c rest => String (upper_char c) (lower rest)
  end.

(** The characters [str.splitlines] breaks a line after (a carriage return
    followed by a line feed counts as one break). *)
Definition is_linebreak (c : ascii) : bool :=
  match code c with
  | 10 | 11 | 12 | 13 | 28 | 29 | 30 | 133 => true
  | _ => false
  end%N.

(** The characters [str.strip] removes. *)
Definition is_space (c : ascii) : bool :=
  match code c with
  | 9 | 10 | 11 | 12 | 13 | 28 | 29 | 30 | 31 | 32 | 133 | 160 => true
  | _ => false
  end%N.

(** The lines of a text, each as its content and the break that ends it
    (empty for a last line that is not terminated). *)
Fixpoint split_lines (s : string) : list (string * string) :=
  match s with
  | EmptyString => []
  | String c rest =>
      if is_linebreak c then
        match rest with
        | String c' rest' =>
            if (code c =? 13)%N && (code c' =? 10)%N
            then (EmptyString, String c (String c' EmptyString)) :: split_lines rest'
            else (EmptyString, String c EmptyString) :: split_lines rest
        | EmptyString => [(EmptyString, String c EmptyString)]
        end
      else
        match split_lines rest with
        | [] => [(String c EmptyString, EmptyString)]
        | (line, ending) :: lines => (String c line, ending) :: lines
        end
  end.

(** [s.splitlines(keepends)] *)
Definition splitlines (keepends : bool) (s : string) : list string :=
  map (λ '(line, ending), if keepends then line +:+ ending else line)
      (split_lines s).

Fixpoint lstrip (s : string) : string :=
  match s with
  | EmptyString => EmptyString
  | String c rest => if is_space c then lstrip rest else s
  end.

Definition rstrip (s : string) : string :=
  String.rev (lstrip (String.rev s)).

Definition strip (s : string) : string := rstrip (lstrip s).

(** Truth value of a string: non-empty. *)
Definition str_truthy (s : string) : bool := negb (String.eqb s "").

(** [''.join(parts)] *)
Definition join (parts : list string) : string := String.concat "" parts.

(** ** nodeCompoundXMLContents *)

Record node := { refid : string }.

(** What the file system holds at a path.  For a regular file, [contents]
    is the outcome of opening it and reading what it holds: its bytes, one
    character each, or the exception raised on the way. *)
Inductive fs_entry :=
| Absent
| NotRegular
| Regular (contents : outcome exc string).

Definition filesystem := string → fs_entry.

(** [os.path.isfile] *)
Definition isfile (fs : filesystem) (path : string) : bool :=
  match fs path with Regular _ => true | _ => false end.

Definition ends_with_slash (s : string) : bool :=
  match String.rev s with
  | String c _ => Ascii.eqb c "/"
  | EmptyString => false
  end.

(** [os.path.join(a, b)] on POSIX paths. *)
Definition path_join (a b : string) : string :=
  if String.prefix "/" b then b
  else if String.eqb a "" || ends_with_slash a then a +:+ b
  else a +:+ "/" +:+ b.

Definition node_xml_path (cfg : configs) (n : node) : string :=
  path_join (doxygenOutputDirectory cfg) (refid n +:+ ".xml").

(** The encoding of the locale, with which [open(path, "r")] decodes what
    it reads: the text of a sequence of bytes, or the [UnicodeDecodeError]
    raised. *)
Definition codec := string → outcome exc string.

(** The translation of line ends done on reading in text mode: a carriage
    return, together with the line feed that follows it if there is one,
    becomes a line feed. *)
Fixpoint universal_newlines (s : string) : string :=
  match s with
  | EmptyString => EmptyString
  | String c rest =>
      if (code c =? 13)%N then
        match rest with
        | String c' rest' =>
            if (code c' =? 10)%N
            then String "010"%char (universal_newlines rest')
            else String "010"%char (universal_newlines rest)
        | EmptyString => String "010"%char EmptyString
        end
      else String c (universal_newlines rest)
  end.

(** [with open(path, "r") as xml: xml.read()] on a regular file, as
    Python 3 reads it: the bytes are decoded, then the line ends are
    translated. *)
Definition read_text (decode : codec) (contents : outcome exc string)
    : outcome exc string :=
  match contents with
  | Raises e => Raises e
  | Returns bytes =>
      match decode bytes with
      | Returns text => Returns (universal_newlines text)
      | Raises e => Raises e
      end
  end.

Definition nodeCompoundXMLContents (cfg : configs) (decode : codec)
    (fs : filesystem) (n : node) : outcome exc pyval :=
  let node_xml_path := node_xml_path cfg n in
  if isfile fs node_xml_path then
    match fs node_xml_path with
    | Regular contents =>
        match read_text decode contents with
        | Returns node_xml_contents => Returns (VStr node_xml_contents)
        | Raises _ => Returns VNone
        end
    | _ => Returns VNone
    end
  else Returns VNone.

(** ** Kind classifier *)

Definition qualifyKind (kind : string) : string :=
  if String.eqb kind "dir" then "Directory" else capitalize kind.

Definition kindAsBreatheDirective (kind : string) : string :=
  "doxygen" +:+ kind.

(** The error of a dictionary subscription on a missing key. *)
Inductive lookup_error := KeyError (key : pyval).

(** Truth value of [configs.customSpecificationsMapping]: [None] and the
    empty dictionary are false. *)
Definition mapping_truthy (m : option dict) : bool :=
  match m with
  | None => false
  | Some d => negb (bool_decide (d = ∅))
  end.

Definition subscript (d : dict) (key : pyval) : outcome lookup_error pyval :=
  match d !! key with
  | Some v => Returns v
  | None => Raises (KeyError key)
  end.

Definition specificationsForKind (cfg : configs) (kind : string)
    : outcome lookup_error pyval :=
  if mapping_truthy (customSpecificationsMapping cfg) then
    match customSpecificationsMapping cfg with
    | Some d => subscript d (VStr kind)
    | None => Returns (VList [])
    end
  else if String.eqb kind "class" || String.eqb kind "struct" then
    Returns (VList [":members:"; ":protected-members:"; ":undoc-members:"])
  else Returns (VList []).

(** ** Console reporter *)

Module AnsiColors.
Definition BOLD := "1m".
Definition DIM := "2m".
Definition UNDER := "4m".
Definition INV := "7m".
Definition BLACK := "30m".
Definition BOLD_BLACK := "30;" +:+ BOLD.
Definition DIM_BLACK := "30;" +:+ DIM.
Definition UNDER_BLACK := "30;" +:+ UNDER.
Definition INV_BLACK := "30;" +:+ INV.
Definition RED := "31m".
Definition BOLD_RED := "31;" +:+ BOLD.
Definition DIM_RED := "31;" +:+ DIM.
Definition UNDER_RED := "31;" +:+ UNDER.
Definition INV_RED := "31;" +:+ INV.
Definition GREEN := "32m".
Definition BOLD_GREEN := "32;" +:+ BOLD.
Definition DIM_GREEN := "32;" +:+ DIM.
Definition UNDER_GREEN := "32;" +:+ UNDER.
Definition INV_GREEN := "32;" +:+ INV.
Definition YELLOW := "33m".
Definition BOLD_YELLOW := "33;" +:+ BOLD.
Definition DIM_YELLOW := "33;" +:+ DIM.
Definition UNDER_YELLOW := "33;" +:+ UNDER.
Definition INV_YELLOW := "33;" +:+ INV.
Definition BLUE := "34m".
Definition BOLD_BLUE := "34;" +:+ BOLD.
Definition DIM_BLUE := "34;" +:+ DIM.
Definition UNDER_BLUE := "34;" +:+ UNDER.
Definition INV_BLUE := "34;" +:+ INV.
Definition MAGENTA := "35m".
Definition BOLD_MAGENTA := "35;" +:+ BOLD.
Definition DIM_MAGENTA := "35;" +:+ DIM.
Definition UNDER_MAGENTA := "35;" +:+ UNDER.
Definition INV_MAGENTA := "35;" +:+ INV.
Definition CYAN := "36m".
Definition BOLD_CYAN := "36;" +:+ BOLD.
Definition DIM_CYAN := "36;" +:+ DIM.
Definition UNDER_CYAN := "36;" +:+ UNDER.
Definition INV_CYAN := "36;" +:+ INV.
Definition WHITE := "37m".
Definition BOLD_WHITE := "37;" +:+ BOLD.
Definition DIM_WHITE := "37;" +:+ DIM.
Definition UNDER_WHITE := "37;" +:+ UNDER.
Definition INV_WHITE := "37;" +:+ INV.
End AnsiColors.

(** [indent(text, prefix, predicate=None)] *)
Definition indent (text prefix : string) (predicate : option (string → bool))
    : string :=
  let predicate := default (λ line, str_truthy (strip line)) predicate in
  join (map (λ line, if predicate line then prefix +:+ line else line)
            (splitlines true text)).

Definition prefix (token msg : string) : string :=
  indent msg token (Some (λ _, true)).

Definition ESC : ascii := "027"%char.

Definition colorize (msg ansi_fmt : string) : string :=
  String ESC ("[" +:+ ansi_fmt +:+ msg +:+ String ESC "[0m").

Inductive stream := stdout | stderr.

(** What the module reads from its host process: whether each standard
    stream is a terminal, the [pygments] highlighter ([None] when its import
    failed; a call may raise), and the outcome of [traceback.format_exc()]. *)
Record runtime := {
  isatty : stream → bool;
  pygments_highlight : option (string → string → string → outcome exc string);
  format_exc : outcome exc string
}.

Definition _use_color (rt : runtime) (cfg : configs)
    (msg ansi_fmt : string) (output_stream : stream) : string :=
  if negb (alwaysColorize cfg) && negb (isatty rt output_stream)
  then msg
  else colorize msg ansi_fmt.

(** The optional arguments are [None] when the caller leaves them out. *)
Definition progress (rt : runtime) (cfg : configs) (msg : string)
    (ansi_fmt : option string) (output_stream : option stream) : string :=
  _use_color rt cfg (prefix "[+] " msg)
    (default AnsiColors.BOLD_GREEN ansi_fmt) (default stdout output_stream).

Definition info (rt : runtime) (cfg : configs) (msg : string)
    (ansi_fmt : option string) (output_stream : option stream) : string :=
  _use_color rt cfg (prefix "[~] " msg)
    (default AnsiColors.BOLD_BLUE ansi_fmt) (default stdout output_stream).

Definition critical (rt : runtime) (cfg : configs) (msg : string)
    (ansi_fmt : option string) (output_stream : option stream) : string :=
  _use_color rt cfg (prefix "(!) " msg)
    (default AnsiColors.BOLD_RED ansi_fmt) (default stderr output_stream).

(** ** Fatal error reporter *)

Definition __fancy (rt : runtime) (text language fmt : string) : string :=
  match pygments_highlight rt with
  | Some highlight =>
      match highlight text language fmt with
      | Returns highlighted => highlighted
      | Raises _ => text
      end
  | None => text
  end.

Definition fancyErrorString (rt : runtime) : string :=
  match format_exc rt with
  | Returns err => __fancy rt (err +:+ String "010"%char "") "py3tb" "console"
  | Raises _ => "CRITICAL: could not extract traceback.format_exc!"
  end.

(** An argument of a call: left out, or passed (possibly as [None]). *)
Inductive arg (A : Type) :=
| Omitted
| Passed (v : option A).
Arguments Omitted {A}.
Arguments Passed {A} v.

(** A cleanup hook: it returns, it raises, or it calls [fancyError] again
    (and lets whatever that call raises propagate). *)
#[warnings="-register-all"]
Inductive hook :=
| HookReturns (name : string)
| HookRaises (name : string) (e : exc)
| HookCallsFancyError (name : string)
    (critical_msg : arg string) (singleton_hook : arg hook).

Inductive event :=
| StderrWrite (text : string)
| DefaultsAssigned (critical_msg : option string) (singleton_hook : option hook)
| HookInvoked (name : string).

(** The state the reporter reads and writes: the tuple held in
    [fancyError.__defaults__] and everything observable done so far. *)
Record process := {
  fancyError_defaults : option string * option hook;
  trace : list event
}.

(** The process as the module is imported: [def fancyError(critical_msg=None,
    singleton_hook=None)]. *)
Definition initial_process : process :=
  {| fancyError_defaults := (None, None); trace := [] |}.

Definition emit (e : event) (p : process) : process :=
  {| fancyError_defaults := fancyError_defaults p; trace := trace p ++ [e] |}.

Definition stderr_write (text : string) (p : process) : process :=
  emit (StderrWrite text) p.

Definition assign_defaults (d : option string * option hook) (p : process)
    : process :=
  {| fancyError_defaults := d;
     trace := trace p ++ [DefaultsAssigned (fst d) (snd d)] |}.

(** How a call of the reporter ends: [os._exit(status)], or an exception
    leaving the call. *)
Inductive termination :=
| Exited (status : Z)
| Unwinding (e : exc).

Inductive hook_result :=
| HookDone
| HookRaised (e : exc)
| HookExited (status : Z).

Definition resolve {A} (a : arg A) (d : option A) : option A :=
  match a with Omitted => d | Passed v => v end.

Definition msg_truthy (m : option string) : bool :=
  match m with Some s => str_truthy s | None => false end.

Definition hook_exception_msg (e : exc) : string :=
  "fancyError: `singleton_hook` caused exception: " +:+ exc_str e.

(** [fancyError(critical_msg, singleton_hook)], with [fuel] bounding the
    depth of the calls a hook makes back into the reporter. *)
Fixpoint fancyError_run (rt : runtime) (cfg : configs) (fuel : nat)
    (critical_msg : arg string) (singleton_hook : arg hook) (p : process)
    : option (process * termination) :=
  match fuel with
  | O => None
  | S fuel =>
      let critical_msg := resolve critical_msg (fst (fancyError_defaults p)) in
      let singleton_hook := resolve singleton_hook (snd (fancyError_defaults p)) in
      let p :=
        if msg_truthy critical_msg
        then stderr_write (critical rt cfg (default "" critical_msg) None None) p
        else p in
      let p := stderr_write (fancyErrorString rt) p in
      match singleton_hook with
      | None => Some (p, Exited 1)
      | Some h =>
          let p := assign_defaults (None, None) p in
          let called :=
            match h with
            | HookReturns name => Some (emit (HookInvoked name) p, HookDone)
            | HookRaises name e => Some (emit (HookInvoked name) p, HookRaised e)
            | HookCallsFancyError name cm sh =>
                match fancyError_run rt cfg fuel cm sh (emit (HookInvoked name) p) with
                | Some (p', Exited status) => Some (p', HookExited status)
                | Some (p', Unwinding e) => Some (p', HookRaised e)
                | None => None
                end
            end in
          match called with
          | None => None
          | Some (p, HookExited status) => Some (p, Exited status)
          | Some (p, HookDone) => Some (p, Exited 1)
          | Some (p, HookRaised e) =>
              if exc_is_Exception e
              then Some (stderr_write
                           (critical rt cfg (hook_exception_msg e) None None) p,
                         Exited 1)
              else Some (p, Unwinding e)
          end
      end
  end.

(** The number of nested calls a hook can make. *)
Fixpoint hook_depth (h : hook) : nat :=
  match h with
  | HookCallsFancyError _ _ (Passed (Some h')) => S (hook_depth h')
  | _ => 1
  end.

Definition opt_depth (h : option hook) : nat :=
  match h with Some h => hook_depth h | None => 0 end.

Definition fancyError (rt : runtime) (cfg : configs)
    (critical_msg : arg string) (singleton_hook : arg hook) (p : process)
    : option (process * termination) :=
  fancyError_run rt cfg
    (S (Nat.max (opt_depth (resolve singleton_hook None))
                (opt_depth (snd (fancyError_defaults p)))))
    critical_msg singleton_hook p.

(** The texts written to standard error, in order. *)
Definition stderr_of (t : list event) : list string :=
  omap (λ e, match e with StderrWrite s => Some s | _ => None end) t.

(** ** Comparison definitions and sample inputs *)

(** A string with its first character upper-cased and the others left as
    they are. *)
Definition first_capitalized (s : string) : string :=
  match s with
  | EmptyString => EmptyString
  | String c rest => String (upper_char c) rest
  end.

Definition LF : string := String "010"%char EmptyString.

(** A configuration in which a custom mapping with entries for two kinds
    is in force. *)
Definition sample_mapping : dict :=
  <[VStr "class" := VStr "   :members:"]>
    (<[VStr "enum" := VStr ""]>
       {[ VStr "sanity_check" := VStr "sanity_check" ]}).

(** The function returns a string on the kind. *)
Definition returns_str (f : string → outcome exc pyval) (kind : string) : Prop :=
  ∃ s, f kind = Returns (VStr s).

(** The keys of the known kinds. *)
Definition kind_keys : gset pyval := list_to_set (VStr <$> AVAILABLE_KINDS).

Definition sample_configs : configs :=
  {| _closure_map_sanity_check := VStr "sanity_check";
     customSpecificationsMapping := None;
     doxygenOutputDirectory := "doxyoutput/xml";
     alwaysColorize := false;
     verboseBuild := false |}.

Definition custom_configs : configs :=
  {| _closure_map_sanity_check := VStr "sanity_check";
     customSpecificationsMapping := Some sample_mapping;
     doxygenOutputDirectory := "doxyoutput/xml";
     alwaysColorize := false;
     verboseBuild := false |}.

Definition colorizing_configs : configs :=
  {| _closure_map_sanity_check := VStr "sanity_check";
     customSpecificationsMapping := None;
     doxygenOutputDirectory := "doxyoutput/xml";
     alwaysColorize := true;
     verboseBuild := false |}.

Definition sample_runtime (tty : bool) : runtime :=
  {| isatty := λ _, tty;
     pygments_highlight := None;
     format_exc := Returns "Traceback" |}.

(** A specifications function that gives every kind the same modifiers. *)
Definition members_for_all (kind : string) : outcome exc pyval :=
  Returns (VStr "   :members:").




(** The text is made of characters below 128. *)
Fixpoint is_ascii (s : string) : bool :=
  match s with
  | EmptyString => true
  | String c rest => (code c <? 128)%N && is_ascii rest
  end.

(** The text has no carriage return. *)
Fixpoint no_CR (s : string) : bool :=
  match s with
  | EmptyString => true
  | String c rest => negb (code c =? 13)%N && no_CR rest
  end.

(** The codec of a locale whose encoding is ASCII. *)
Definition ascii_codec : codec :=
  λ bytes,
    if is_ascii bytes then Returns bytes
    else Raises (Exc "UnicodeDecodeError" true
                   "'ascii' codec can't decode byte: ordinal not in range(128)").

Definition CR : string := String "013"%char EmptyString.

(** A file system with a readable XML file, one that cannot be opened, one
    with carriage returns, one that does not decode, and a directory. *)
Definition sample_fs : filesystem :=
  λ path,
    if String.eqb path "doxyoutput/xml/classFoo.xml"
    then Regular (Returns "<doxygen/>")
    else if String.eqb path "doxyoutput/xml/locked.xml"
    then Regular (Raises (Exc "IOError" true "Permission denied"))
    else if String.eqb path "doxyoutput/xml/crlf.xml"
    then Regular (Returns ("a" +:+ CR +:+ LF +:+ "b" +:+ CR +:+ "c" +:+ LF))
    else if String.eqb path "doxyoutput/xml/latin.xml"
    then Regular (Returns (String "233"%char "t" +:+ String "233"%char EmptyString))
    else if String.eqb path "doxyoutput/xml/dir_src.xml"
    then NotRegular
    else Absent.

(** The message of the console example: two lines around an empty one. *)
Definition three_lines : string := "a" +:+ LF +:+ LF +:+ "b".

(** The first two steps of [fancyError]: the message, when there is one,
    then the traceback. *)
Definition report (rt : runtime) (cfg : configs) (critical_msg : option string)
    (p : process) : process :=
  stderr_write (fancyErrorString rt)
    (if msg_truthy critical_msg
     then stderr_write (critical rt cfg (default "" critical_msg) None None) p
     else p).

(** Every exception a hook can raise, at any depth, derives from
    [Exception]. *)
Fixpoint raises_only_Exception (h : hook) : bool :=
  match h with
  | HookReturns _ => true
  | HookRaises _ e => exc_is_Exception e
  | HookCallsFancyError _ _ (Passed (Some h')) => raises_only_Exception h'
  | HookCallsFancyError _ _ _ => true
  end.

(** A cleanup hook that reports its own failure through [fancyError],
    passing a message and the cleanup again. *)
Definition cleanup_reports_again : hook :=
  HookCallsFancyError "cleanup"
    (Passed (Some "again")) (Passed (Some (HookReturns "cleanup"))).

(** The process after [fancyError("first", cleanup)] on the process as
    imported, when [cleanup] raises a [ValueError] and the exit is
    intercepted. *)
Definition after_failed_cleanup : process :=
  {| fancyError_defaults := (None, None);
     trace :=
       [ StderrWrite "(!) first";
         StderrWrite ("Traceback" +:+ LF);
         DefaultsAssigned None None;
         HookInvoked "cleanup";
         StderrWrite
           "(!) fancyError: `singleton_hook` caused exception: no such directory" ] |}.

(** A cleanup hook that calls [sys.exit(0)]. *)
Definition cleanup_exits : hook := HookRaises "cleanup" (Exc "SystemExit" false "0").

(** ** Further functions of the module, and inputs for their properties *)

(** [exclaim(err_msg)]: the lines of the message behind ["(!) "], without
    their breaks, joined by a line feed and the token. *)
Definition exclaim (err_msg : string) : string :=
  String.concat (LF +:+ "(!) ") (splitlines false ("(!) " +:+ err_msg)).

(** An attribute of a class, as [printAllColorsToConsole] sees it: a [str]
    value, or any other object. *)
Inductive attribute :=
| StrAttr (value : string)
| ObjAttr.

(** The line printed for one colour. *)
Definition color_line (color_fmt elem : string) : string :=
  String ESC ("[" +:+ color_fmt +:+ "AnsiColors." +:+ elem +:+ String ESC "[0m").

(** [printAllColorsToConsole], on the entries of [cls.__dict__] in the order
    the loop meets them; the result lists the lines printed. *)
Definition printAllColorsToConsole (cls_dict : list (string * attribute))
    : list string :=
  omap (λ '(elem, attr),
          if negb (String.prefix "__" elem) then
            match attr with
            | StrAttr color_fmt =>
                if negb (String.eqb color_fmt "BOLD")
                   && negb (String.eqb color_fmt "DIM")
                   && negb (String.eqb color_fmt "UNDER")
                   && negb (String.eqb color_fmt "INV")
                then Some (color_line color_fmt elem)
                else None
            | ObjAttr => None
            end
          else None)
       cls_dict.

(** The attributes the body of [AnsiColors] defines, in its order.  The
    interpreter adds entries whose names start with two underscores. *)
Definition AnsiColors_attributes : list (string * attribute) :=
  [ ("BOLD", StrAttr AnsiColors.BOLD); ("DIM", StrAttr AnsiColors.DIM);
    ("UNDER", StrAttr AnsiColors.UNDER); ("INV", StrAttr AnsiColors.INV);
    ("BLACK", StrAttr AnsiColors.BLACK);
    ("BOLD_BLACK", StrAttr AnsiColors.BOLD_BLACK);
    ("DIM_BLACK", StrAttr AnsiColors.DIM_BLACK);
    ("UNDER_BLACK", StrAttr AnsiColors.UNDER_BLACK);
    ("INV_BLACK", StrAttr AnsiColors.INV_BLACK);
    ("RED", StrAttr AnsiColors.RED);
    ("BOLD_RED", StrAttr AnsiColors.BOLD_RED);
    ("DIM_RED", StrAttr AnsiColors.DIM_RED);
    ("UNDER_RED", StrAttr AnsiColors.UNDER_RED);
    ("INV_RED", StrAttr AnsiColors.INV_RED);
    ("GREEN", StrAttr AnsiColors.GREEN);
    ("BOLD_GREEN", StrAttr AnsiColors.BOLD_GREEN);
    ("DIM_GREEN", StrAttr AnsiColors.DIM_GREEN);
    ("UNDER_GREEN", StrAttr AnsiColors.UNDER_GREEN);
    ("INV_GREEN", StrAttr AnsiColors.INV_GREEN);
    ("YELLOW", StrAttr AnsiColors.YELLOW);
    ("BOLD_YELLOW", StrAttr AnsiColors.BOLD_YELLOW);
    ("DIM_YELLOW", StrAttr AnsiColors.DIM_YELLOW);
    ("UNDER_YELLOW", StrAttr AnsiColors.UNDER_YELLOW);
    ("INV_YELLOW", StrAttr AnsiColors.INV_YELLOW);
    ("BLUE", StrAttr AnsiColors.BLUE);
    ("BOLD_BLUE", StrAttr AnsiColors.BOLD_BLUE);
    ("DIM_BLUE", StrAttr AnsiColors.DIM_BLUE);
    ("UNDER_BLUE", StrAttr AnsiColors.UNDER_BLUE);
    ("INV_BLUE", StrAttr AnsiColors.INV_BLUE);
    ("MAGENTA", StrAttr AnsiColors.MAGENTA);
    ("BOLD_MAGENTA", StrAttr AnsiColors.BOLD_MAGENTA);
    ("DIM_MAGENTA", StrAttr AnsiColors.DIM_MAGENTA);
    ("UNDER_MAGENTA", StrAttr AnsiColors.UNDER_MAGENTA);
    ("INV_MAGENTA", StrAttr AnsiColors.INV_MAGENTA);
    ("CYAN", StrAttr AnsiColors.CYAN);
    ("BOLD_CYAN", StrAttr AnsiColors.BOLD_CYAN);
    ("DIM_CYAN", StrAttr AnsiColors.DIM_CYAN);
    ("UNDER_CYAN", StrAttr AnsiColors.UNDER_CYAN);
    ("INV_CYAN", StrAttr AnsiColors.INV_CYAN);
    ("WHITE", StrAttr AnsiColors.WHITE);
    ("BOLD_WHITE", StrAttr AnsiColors.BOLD_WHITE);
    ("DIM_WHITE", StrAttr AnsiColors.DIM_WHITE);
    ("UNDER_WHITE", StrAttr AnsiColors.UNDER_WHITE);
    ("INV_WHITE", StrAttr AnsiColors.INV_WHITE);
    ("printAllColorsToConsole", ObjAttr) ].

(** The text has no character that ends a line. *)
Fixpoint no_linebreak (s : string) : bool :=
  match s with
  | EmptyString => true
  | String c rest => negb (is_linebreak c) && no_linebreak rest
  end.

(** The text consists of characters that [strip] removes. *)
Fixpoint all_space (s : string) : bool :=
  match s with
  | EmptyString => true
  | String c rest => is_space c && all_space rest
  end.

(** A configuration whose marker is the string of a known kind. *)
Definition colliding_configs : configs :=
  {| _closure_map_sanity_check := VStr "file";
     customSpecificationsMapping := None;
     doxygenOutputDirectory := "doxyoutput/xml";
     alwaysColorize := false;
     verboseBuild := false |}.

(** A configuration whose custom mapping is the empty dictionary. *)
Definition empty_mapping_configs : configs :=
  {| _closure_map_sanity_check := VStr "sanity_check";
     customSpecificationsMapping := Some ∅;
     doxygenOutputDirectory := "doxyoutput/xml";
     alwaysColorize := false;
     verboseBuild := false |}.

(** A host whose standard output is redirected and whose standard error
    is a terminal. *)
Definition stdout_redirected : runtime :=
  {| isatty := λ s, match s with stdout => false | stderr => true end;
     pygments_highlight := None;
     format_exc := Returns "Traceback" |}.

(** A host whose highlighter raises. *)
Definition failing_highlighter : runtime :=
  {| isatty := λ _, false;
     pygments_highlight :=
       Some (λ _ _ _, Raises (Exc "ClassNotFound" true "no lexer for py3tb"));
     format_exc := Returns "Traceback" |}.

(** The dictionary the builder returns for [members_for_all], and a
    configuration in which it is registered. *)
Definition built_mapping : dict :=
  match snd (makeCustomSpecificationsMapping sample_configs
               (Function members_for_all)) with
  | Returns m => m
  | Raises _ => ∅
  end.

Definition built_configs : configs :=
  {| _closure_map_sanity_check := VStr "sanity_check";
     customSpecificationsMapping := Some built_mapping;
     doxygenOutputDirectory := "doxyoutput/xml";
     alwaysColorize := false;
     verboseBuild := false |}.

(** * Properties *)

(** Settles a goal for each element of a list given in full, by
    computation. *)
Ltac each_element H :=
  repeat (apply elem_of_cons in H as [->|H]; [reflexivity|]);
  by apply elem_of_nil in H.

(** ** makeCustomSpecificationsMapping *)

Section fill_kinds.
Variable f : string → outcome exc pyval.

(** Kinds on which [f] returns strings are passed over: the loop reaches
    what follows them, having called [f] on each. *)
Lemma fill_kinds_app pre rest calls ret :
  (∀ k, k ∈ pre → returns_str f k) →
  ∃ ret', fill_kinds f (pre ++ rest) calls ret
          = fill_kinds f rest (calls ++ pre) ret'.
Proof.
  revert calls ret.
  induction pre as [|a pre IH]; intros calls ret Hpre; simpl.
  - exists ret. by rewrite app_nil_r.
  - destruct (Hpre a) as [s Hs]; [left|].
    rewrite Hs. simpl.
    destruct (IH (calls ++ [a]) (<[VStr a := VStr s]> ret)) as [ret' Hret'].
    { intros k Hk. apply Hpre. by right. }
    exists ret'. rewrite Hret'. by rewrite <- app_assoc.
Qed.

(** When [f] returns a string on every kind the loop runs to its end, and
    the dictionary gains exactly the kinds as keys. *)
Lemma fill_kinds_strings kinds calls ret :
  (∀ k, k ∈ kinds → returns_str f k) →
  ∃ m, fill_kinds f kinds calls ret = (calls ++ kinds, Returns m)
     ∧ dom m = dom ret ∪ list_to_set (VStr <$> kinds)
     ∧ (∀ key, key ∉ VStr <$> kinds → m !! key = ret !! key)
     ∧ (∀ k v, k ∈ kinds → f k = Returns v → m !! VStr k = Some v).
Proof.
  revert calls ret.
  induction kinds as [|a kinds IH]; intros calls ret Hall; simpl.
  - exists ret. rewrite app_nil_r. split_and!; [done|set_solver|done|].
    intros k v Hk. by apply elem_of_nil in Hk.
  - destruct (Hall a) as [s Hs]; [left|].
    rewrite Hs. simpl.
    destruct (IH (calls ++ [a]) (<[VStr a := VStr s]> ret))
      as (m & Hm & Hdom & Hout & Hin).
    { intros k Hk. apply Hall. by right. }
    exists m. split_and!.
    + by rewrite Hm, <- app_assoc.
    + rewrite Hdom, dom_insert_L. set_solver.
    + intros key Hkey. apply not_elem_of_cons in Hkey as [Hne Hkey].
      rewrite Hout by done. by rewrite lookup_insert_ne.
    + intros k v Hk Hv.
      destruct (decide (k ∈ kinds)) as [Hk'|Hk']; [by apply Hin|].
      apply elem_of_cons in Hk as [->|Hk]; [|done].
      rewrite Hout.
      * rewrite lookup_insert_eq. congruence.
      * intros (k' & Heq & Hk'')%list_elem_of_fmap. congruence.
Qed.

(** The loop stops at the first kind on which [f] does not return a
    string: there it raises what [f] raised, or the validation error. *)
Lemma fill_kinds_first_failure pre kind post ret :
  (∀ k, k ∈ pre → returns_str f k) →
  ¬ returns_str f kind →
  fill_kinds f (pre ++ kind :: post) [] ret
  = (pre ++ [kind],
     match f kind with
     | Raises e => Raises e
     | Returns _ => Raises (RuntimeError (not_a_string_msg kind))
     end).
Proof.
  intros Hpre Hkind.
  destruct (fill_kinds_app pre (kind :: post) [] ret Hpre) as [ret' ->].
  simpl. destruct (f kind) as [v|e] eqn:Hf; [|done].
  destruct v; simpl; try done.
  destruct Hkind. by eexists.
Qed.
End fill_kinds.

Lemma AVAILABLE_KINDS_NoDup : NoDup AVAILABLE_KINDS.
Proof. by apply (bool_decide_unpack _). Qed.

Lemma AVAILABLE_KINDS_length : length AVAILABLE_KINDS = 13.
Proof. reflexivity. Qed.

Lemma kind_keys_size : size kind_keys = 13.
Proof.
  unfold kind_keys. rewrite size_list_to_set.
  - by rewrite length_fmap.
  - apply NoDup_fmap_2; [by intros ?? [= ->]|apply AVAILABLE_KINDS_NoDup].
Qed.

(** C1.  For a function that returns a string on each of the 13 known
    kinds, and a marker of [configs] that is not itself the string of a
    known kind, [makeCustomSpecificationsMapping] calls the function once on
    each kind, in order, and returns a dictionary that maps every known kind
    to what the function returned for it, maps the marker to itself, and has
    no other key: 14 entries in all. *)
Theorem makeCustomSpecificationsMapping_strings cfg f :
  (∀ kind, kind ∈ AVAILABLE_KINDS → ∃ s, f kind = Returns (VStr s)) →
  _closure_map_sanity_check cfg ∉ VStr <$> AVAILABLE_KINDS →
  ∃ m : dict,
    makeCustomSpecificationsMapping cfg (Function f) = (AVAILABLE_KINDS, Returns m)
    ∧ (∀ kind v, kind ∈ AVAILABLE_KINDS → f kind = Returns v →
         m !! VStr kind = Some v)
    ∧ m !! _closure_map_sanity_check cfg = Some (_closure_map_sanity_check cfg)
    ∧ dom m = {[ _closure_map_sanity_check cfg ]} ∪ kind_keys
    ∧ size m = 14.
Proof.
  intros Hf Hmarker. unfold makeCustomSpecificationsMapping.
  destruct (fill_kinds_strings f AVAILABLE_KINDS []
              {[ _closure_map_sanity_check cfg := _closure_map_sanity_check cfg ]} Hf)
    as (m & Hm & Hdom & Hout & Hin).
  exists m. rewrite Hm. simpl. rewrite dom_singleton_L in Hdom.
  split_and!; try done.
  - rewrite Hout by done. apply lookup_singleton_eq.
  - rewrite <- size_dom, Hdom. fold kind_keys.
    rewrite size_union, size_singleton, kind_keys_size; [done|].
    apply disjoint_singleton_l. unfold kind_keys.
    by rewrite elem_of_list_to_set.
Qed.




Lemma makeCustomSpecificationsMapping_strings_witness :
  ∃ m : dict,
    makeCustomSpecificationsMapping sample_configs (Function members_for_all)
    = (AVAILABLE_KINDS, Returns m)
    ∧ (∀ kind v, kind ∈ AVAILABLE_KINDS → members_for_all kind = Returns v →
         m !! VStr kind = Some v)
    ∧ m !! VStr "sanity_check" = Some (VStr "sanity_check")
    ∧ dom m = {[ VStr "sanity_check" ]} ∪ kind_keys
    ∧ size m = 14.
Proof.
  apply (makeCustomSpecificationsMapping_strings sample_configs members_for_all).
  - intros kind _. by eexists.
  - apply (bool_decide_unpack _). vm_compute. reflexivity.
Defined.




(** A function that returns on every known kind, one of the values not a
    string, is refused with an error that names the first such kind. *)
Lemma makeCustomSpecificationsMapping_names_offender cfg f :
  (∀ k, k ∈ AVAILABLE_KINDS → ∃ v, f k = Returns v) →
  (∃ k v, k ∈ AVAILABLE_KINDS ∧ f k = Returns v ∧ is_str v = false) →
  ∃ calls kind v,
    kind ∈ AVAILABLE_KINDS ∧ f kind = Returns v ∧ is_str v = false
    ∧ makeCustomSpecificationsMapping cfg (Function f)
      = (calls, Raises (RuntimeError (unable_msg (not_a_string_msg kind)))).
Proof.
  intros Htotal Hbad.
  assert (∃ pre kind post v, AVAILABLE_KINDS = pre ++ kind :: post
            ∧ (∀ k, k ∈ pre → returns_str f k)
            ∧ f kind = Returns v ∧ is_str v = false)
    as (pre & kind & post & v & Hsplit & Hpre & Hv & Hnot).
  { revert Htotal Hbad. generalize AVAILABLE_KINDS as kinds.
    induction kinds as [|a kinds IH]; intros Htotal (k & v & Hk & Hv & Hnot).
    - by apply elem_of_nil in Hk.
    - destruct (Htotal a) as [va Hva]; [left|].
      destruct (is_str va) eqn:Hstr.
      + destruct va; try done.
        destruct IH as (pre & kind & post & v' & -> & Hpre & Hv' & Hnot').
        { intros k' Hk'. apply Htotal. by right. }
        { apply elem_of_cons in Hk as [->|Hk]; [|by eauto 6].
          rewrite Hva in Hv. injection Hv as <-. done. }
        exists (a :: pre), kind, post, v'. split_and!; try done.
        intros k' [->|Hk']%elem_of_cons; [by eexists|by apply Hpre].
      + exists [], a, kinds, va. split_and!; try done.
        intros k' Hk'. by apply elem_of_nil in Hk'. }
  exists (pre ++ [kind]), kind, v. split_and!; try done.
  - rewrite Hsplit. apply elem_of_app. right. left.
  - unfold makeCustomSpecificationsMapping.
    rewrite Hsplit, fill_kinds_first_failure; [by rewrite Hv|done|].
    intros [s Hs]. rewrite Hs in Hv. by injection Hv as <-.
Qed.

(** Whatever dictionary the builder returns is non-empty, hence true. *)
Lemma fill_kinds_nonempty f kinds calls ret calls' m :
  fill_kinds f kinds calls ret = (calls', Returns m) → ret ≠ ∅ → m ≠ ∅.
Proof.
  revert calls ret. induction kinds as [|a kinds IH]; intros calls ret; simpl.
  - by intros [= _ ->].
  - destruct (f a) as [v|e]; [|done].
    destruct (is_str v); [|done].
    intros Hfill _. eapply IH; [exact Hfill|]. apply insert_non_empty.
Qed.

Lemma makeCustomSpecificationsMapping_truthy cfg func calls m :
  makeCustomSpecificationsMapping cfg func = (calls, Returns m) →
  mapping_truthy (Some m) = true.
Proof.
  unfold makeCustomSpecificationsMapping. destruct func as [f|ty call]; [|done].
  destruct (fill_kinds _ _ _ _) as [calls' r] eqn:Hfill.
  destruct r as [m'|e]; simpl; [|by destruct (exc_is_Exception e)].
  intros [= -> ->]. apply negb_true_iff, bool_decide_eq_false.
  eapply fill_kinds_nonempty; [exact Hfill|]. apply insert_non_empty.
Qed.

(** ** specificationsForKind *)

(** C4.  With no custom mapping in force (none set, or an empty one),
    [class] and [struct] get the three default modifiers in their fixed
    order and every other kind gets the empty list. *)
Theorem specificationsForKind_default cfg :
  mapping_truthy (customSpecificationsMapping cfg) = false →
  specificationsForKind cfg "class"
  = Returns (VList [":members:"; ":protected-members:"; ":undoc-members:"])
  ∧ specificationsForKind cfg "struct"
    = Returns (VList [":members:"; ":protected-members:"; ":undoc-members:"])
  ∧ (∀ kind, kind ≠ "class" → kind ≠ "struct" →
       specificationsForKind cfg kind = Returns (VList [])).
Proof.
  intros Hunset. unfold specificationsForKind. rewrite Hunset.
  split_and!; try reflexivity.
  intros kind Hclass%String.eqb_neq Hstruct%String.eqb_neq.
  by rewrite Hclass, Hstruct.
Qed.

Lemma specificationsForKind_default_witness :
  specificationsForKind sample_configs "class"
  = Returns (VList [":members:"; ":protected-members:"; ":undoc-members:"])
  ∧ specificationsForKind sample_configs "struct"
    = Returns (VList [":members:"; ":protected-members:"; ":undoc-members:"])
  ∧ specificationsForKind sample_configs "union" = Returns (VList []).
Proof.
  destruct (specificationsForKind_default sample_configs) as (Hc & Hs & Ho);
    [reflexivity|].
  split_and!; [exact Hc|exact Hs|by apply Ho].
Defined.

(** C5.  With a custom mapping set, a kind that is a key of it gets
    exactly its entry; and when the mapping is in force (a non-empty
    dictionary, as every dictionary of the builder is), a kind that is not
    a key ends in a [KeyError] on that kind. *)
Theorem specificationsForKind_custom cfg (d : dict) kind :
  customSpecificationsMapping cfg = Some d →
  (∀ v, d !! VStr kind = Some v → specificationsForKind cfg kind = Returns v)
  ∧ (d ≠ ∅ → d !! VStr kind = None →
     specificationsForKind cfg kind = Raises (KeyError (VStr kind))).
Proof.
  intros Hd. unfold specificationsForKind, subscript. rewrite Hd. simpl.
  split.
  - intros v Hv. rewrite bool_decide_eq_false_2; [by rewrite Hv|].
    intros ->. by rewrite lookup_empty in Hv.
  - intros Hne ->. by rewrite bool_decide_eq_false_2.
Qed.

(** In the sample configuration [class] is a key and [union] is not. *)
Lemma specificationsForKind_custom_witness :
  specificationsForKind custom_configs "class" = Returns (VStr "   :members:")
  ∧ specificationsForKind custom_configs "union"
    = Raises (KeyError (VStr "union")).
Proof.
  split.
  - apply (specificationsForKind_custom custom_configs sample_mapping "class");
      [reflexivity|].
    unfold sample_mapping. apply lookup_insert_eq.
  - apply (specificationsForKind_custom custom_configs sample_mapping "union");
      [reflexivity|apply insert_non_empty|].
    unfold sample_mapping.
    rewrite !lookup_insert_ne by done. by rewrite lookup_singleton_ne.
Defined.

(** An empty dictionary is not in force: the defaults apply, and a kind
    absent from it is not a lookup error. *)
Lemma specificationsForKind_empty_mapping cfg kind :
  customSpecificationsMapping cfg = Some ∅ →
  specificationsForKind cfg kind
  = Returns (VList (if String.eqb kind "class" || String.eqb kind "struct"
                    then [":members:"; ":protected-members:"; ":undoc-members:"]
                    else [])).
Proof.
  intros Hd. unfold specificationsForKind. rewrite Hd. simpl.
  rewrite bool_decide_eq_true_2 by done. simpl.
  by destruct (_ || _).
Qed.

(** ** qualifyKind *)

(** On a string whose characters after the first are not upper-case
    letters, capitalizing changes the first character only. *)
Lemma capitalize_first_capitalized s :
  lower (match s with String _ rest => rest | EmptyString => EmptyString end)
  = match s with String _ rest => rest | EmptyString => EmptyString end →
  capitalize s = first_capitalized s.
Proof. destruct s as [|c rest]; simpl; [done|]. by intros ->. Qed.

Lemma qualifyKind_not_dir kind :
  kind ≠ "dir" → qualifyKind kind = capitalize kind.
Proof. intros Hne%String.eqb_neq. unfold qualifyKind. by rewrite Hne. Qed.

(** C8.  [qualifyKind] sends ["dir"] to ["Directory"] and every other known
    kind to the kind with its first character capitalized. *)
Theorem qualifyKind_known_kinds kind :
  kind ∈ AVAILABLE_KINDS →
  qualifyKind "dir" = "Directory"
  ∧ (kind ≠ "dir" → qualifyKind kind = first_capitalized kind).
Proof.
  intros Hkind. split; [reflexivity|]. intros Hne.
  rewrite qualifyKind_not_dir by done.
  unfold AVAILABLE_KINDS in Hkind. each_element Hkind.
Qed.

Lemma qualifyKind_known_kinds_witness :
  qualifyKind "dir" = "Directory" ∧ qualifyKind "enumvalue" = "Enumvalue".
Proof.
  destruct (qualifyKind_known_kinds "enumvalue") as [Hdir Hother].
  - apply (bool_decide_unpack _). vm_compute. reflexivity.
  - split; [exact Hdir|]. by apply Hother.
Defined.

(** The table of the docstring. *)
Example qualifyKind_table :
  qualifyKind <$> AVAILABLE_KINDS
  = [ "Class"; "Struct"; "Function"; "Enum"; "Enumvalue"; "Namespace";
      "Define"; "Typedef"; "Variable"; "File"; "Directory"; "Group"; "Union" ].
Proof. reflexivity. Qed.

(** Outside the known kinds the two differ: capitalizing lowers the rest. *)
Example qualifyKind_lowers_the_rest :
  qualifyKind "enumValue" = "Enumvalue"
  ∧ first_capitalized "enumValue" = "EnumValue".
Proof. split; reflexivity. Qed.

(** ** nodeCompoundXMLContents *)

(** The path read is [<refid>.xml] inside the configured directory. *)
Lemma node_xml_path_in_directory cfg n :
  String.prefix "/" (refid n +:+ ".xml") = false →
  doxygenOutputDirectory cfg ≠ "" →
  ends_with_slash (doxygenOutputDirectory cfg) = false →
  node_xml_path cfg n = doxygenOutputDirectory cfg +:+ "/" +:+ refid n +:+ ".xml".
Proof.
  intros Hrel Hdir%String.eqb_neq Hslash. unfold node_xml_path, path_join.
  by rewrite Hrel, Hdir, Hslash.
Qed.

Lemma universal_newlines_no_CR s :
  no_CR s = true → universal_newlines s = s.
Proof.
  induction s as [|c s IH]; [done|]. simpl.
  intros [Hc Hs]%andb_true_iff. apply negb_true_iff in Hc.
  rewrite Hc. by rewrite IH.
Qed.

(** What is returned has no carriage return left. *)
Lemma universal_newlines_free s : no_CR (universal_newlines s) = true.
Proof.
  assert (∀ n s, (String.length s ≤ n)%nat →
            no_CR (universal_newlines s) = true) as H; [|by eapply H].
  clear s. induction n as [|n IH]; intros [|c rest] Hlen; simpl in *;
    try done; try lia.
  destruct (code c =? 13)%N eqn:Hc.
  - destruct rest as [|c' rest']; [done|].
    destruct (code c' =? 10)%N.
    + apply (IH rest'). simpl in Hlen. lia.
    + apply (IH (String c' rest')). simpl in *. lia.
  - simpl. rewrite Hc. apply (IH rest). lia.
Qed.

(** The amended C9.  The call never raises.  It returns [None] when there
    is no regular file at the path of the node's XML, when the file cannot
    be opened or read, and when what it holds does not decode.  Otherwise
    it returns what the file holds as reading in text mode gives it: decoded,
    with every carriage return, alone or before a line feed, turned into a
    line feed; this is what the file holds, unchanged, when that is text
    the codec leaves as it is and has no carriage return.  The path is
    [<refid>.xml] in the configured directory. *)
Theorem nodeCompoundXMLContents_spec cfg decode fs n :
  (isfile fs (node_xml_path cfg n) = false →
   nodeCompoundXMLContents cfg decode fs n = Returns VNone)
  ∧ (∀ e, fs (node_xml_path cfg n) = Regular (Raises e) →
     nodeCompoundXMLContents cfg decode fs n = Returns VNone)
  ∧ (∀ bytes e, fs (node_xml_path cfg n) = Regular (Returns bytes) →
     decode bytes = Raises e →
     nodeCompoundXMLContents cfg decode fs n = Returns VNone)
  ∧ (∀ bytes text, fs (node_xml_path cfg n) = Regular (Returns bytes) →
     decode bytes = Returns text →
     nodeCompoundXMLContents cfg decode fs n
     = Returns (VStr (universal_newlines text)))
  ∧ (∀ bytes, fs (node_xml_path cfg n) = Regular (Returns bytes) →
     decode bytes = Returns bytes →
     no_CR bytes = true →
     nodeCompoundXMLContents cfg decode fs n = Returns (VStr bytes))
  ∧ (String.prefix "/" (refid n +:+ ".xml") = false →
     doxygenOutputDirectory cfg ≠ "" →
     ends_with_slash (doxygenOutputDirectory cfg) = false →
     node_xml_path cfg n
     = doxygenOutputDirectory cfg +:+ "/" +:+ refid n +:+ ".xml").
Proof.
  unfold nodeCompoundXMLContents, isfile, read_text. split_and!.
  - by intros ->.
  - by intros e ->.
  - by intros bytes e -> ->.
  - by intros bytes text -> ->.
  - intros bytes -> -> Hcr. by rewrite universal_newlines_no_CR.
  - apply node_xml_path_in_directory.
Qed.

(** A missing file, a directory, a file that cannot be opened, one that
    does not decode, one with carriage returns and one without. *)
Lemma nodeCompoundXMLContents_spec_witness :
  nodeCompoundXMLContents sample_configs ascii_codec sample_fs
    {| refid := "missing" |} = Returns VNone
  ∧ nodeCompoundXMLContents sample_configs ascii_codec sample_fs
      {| refid := "dir_src" |} = Returns VNone
  ∧ nodeCompoundXMLContents sample_configs ascii_codec sample_fs
      {| refid := "locked" |} = Returns VNone
  ∧ nodeCompoundXMLContents sample_configs ascii_codec sample_fs
      {| refid := "latin" |} = Returns VNone
  ∧ nodeCompoundXMLContents sample_configs ascii_codec sample_fs
      {| refid := "crlf" |}
    = Returns (VStr (universal_newlines
                       ("a" +:+ CR +:+ LF +:+ "b" +:+ CR +:+ "c" +:+ LF)))
  ∧ nodeCompoundXMLContents sample_configs ascii_codec sample_fs
      {| refid := "classFoo" |} = Returns (VStr "<doxygen/>")
  ∧ node_xml_path sample_configs {| refid := "classFoo" |}
    = "doxyoutput/xml/classFoo.xml".
Proof.
  split_and!.
  - destruct (nodeCompoundXMLContents_spec sample_configs ascii_codec sample_fs
                {| refid := "missing" |}) as (H & _).
    by apply H.
  - destruct (nodeCompoundXMLContents_spec sample_configs ascii_codec sample_fs
                {| refid := "dir_src" |}) as (H & _).
    by apply H.
  - destruct (nodeCompoundXMLContents_spec sample_configs ascii_codec sample_fs
                {| refid := "locked" |}) as (_ & H & _).
    by eapply H.
  - destruct (nodeCompoundXMLContents_spec sample_configs ascii_codec sample_fs
                {| refid := "latin" |}) as (_ & _ & H & _).
    by eapply H.
  - destruct (nodeCompoundXMLContents_spec sample_configs ascii_codec sample_fs
                {| refid := "crlf" |}) as (_ & _ & _ & H & _).
    by eapply H.
  - destruct (nodeCompoundXMLContents_spec sample_configs ascii_codec sample_fs
                {| refid := "classFoo" |}) as (_ & _ & _ & _ & H & _).
    by apply H.
  - destruct (nodeCompoundXMLContents_spec sample_configs ascii_codec sample_fs
                {| refid := "classFoo" |}) as (_ & _ & _ & _ & _ & H).
    by apply H.
Defined.

(** A readable file that holds carriage returns is not returned as it is:
    the text returned has line feeds in their place. *)
Lemma nodeCompoundXMLContents_translates_newlines :
  sample_fs (node_xml_path sample_configs {| refid := "crlf" |})
  = Regular (Returns ("a" +:+ CR +:+ LF +:+ "b" +:+ CR +:+ "c" +:+ LF))
  ∧ nodeCompoundXMLContents sample_configs ascii_codec sample_fs
      {| refid := "crlf" |}
    = Returns (VStr ("a" +:+ LF +:+ "b" +:+ LF +:+ "c" +:+ LF))
  ∧ "a" +:+ LF +:+ "b" +:+ LF +:+ "c" +:+ LF
    ≠ "a" +:+ CR +:+ LF +:+ "b" +:+ CR +:+ "c" +:+ LF.
Proof. split_and!; [reflexivity|reflexivity|discriminate]. Qed.

(** ** Console reporter *)

Lemma append_cons c s t : String c s +:+ t = String c (s +:+ t).
Proof. reflexivity. Qed.

Lemma append_nil_r s : s +:+ "" = s.
Proof. induction s as [|c s IH]; [done|]. by rewrite append_cons, IH. Qed.

Lemma join_cons x xs : join (x :: xs) = x +:+ join xs.
Proof.
  unfold join. destruct xs as [|y ys]; simpl; [|done].
  by rewrite append_nil_r.
Qed.

(** Splitting with the breaks kept loses nothing: the lines joined are the
    text. *)
Lemma join_splitlines s : join (splitlines true s) = s.
Proof.
  unfold splitlines.
  assert (∀ n s, (String.length s ≤ n)%nat →
            join (map (λ '(line, ending), line +:+ ending) (split_lines s)) = s)
    as H; [|by eapply H].
  clear s. induction n as [|n IH]; intros [|c rest] Hlen; simpl in *;
    try done; try lia.
  destruct (is_linebreak c).
  - destruct rest as [|c' rest']; [done|].
    destruct (_ && _); simpl; rewrite join_cons.
    + change (String c (String c' (join (map (λ '(line, ending), line +:+ ending)
                (split_lines rest')))) = String c (String c' rest')).
      do 2 f_equal. apply IH. simpl in Hlen. lia.
    + change (String c (join (map (λ '(line, ending), line +:+ ending)
                (split_lines (String c' rest')))) = String c (String c' rest')).
      f_equal. apply IH. lia.
  - specialize (IH rest ltac:(lia)).
    destruct (split_lines rest) as [|[line ending] lines]; simpl in *.
    + by rewrite <- IH.
    + rewrite join_cons in *. rewrite !append_cons. f_equal. exact IH.
Qed.

(** [prefix] puts the token in front of every line, whatever the line. *)
Lemma prefix_every_line token msg :
  prefix token msg = join ((λ line, token +:+ line) <$> splitlines true msg).
Proof. reflexivity. Qed.

Example splitlines_three_lines :
  splitlines true three_lines = ["a" +:+ LF; LF; "b"].
Proof. reflexivity. Qed.

(** The default predicate of [indent] skips the empty line that [prefix]
    does not. *)
Example indent_skips_blank_lines :
  indent three_lines "[+] " None = "[+] a" +:+ LF +:+ LF +:+ "[+] b"
  ∧ prefix "[+] " three_lines = "[+] a" +:+ LF +:+ "[+] " +:+ LF +:+ "[+] b".
Proof. split; reflexivity. Qed.

Lemma _use_color_forced rt cfg msg ansi_fmt output_stream :
  alwaysColorize cfg = true ∨ isatty rt output_stream = true →
  _use_color rt cfg msg ansi_fmt output_stream = colorize msg ansi_fmt.
Proof.
  unfold _use_color. intros [->| ->]; [done|].
  by rewrite andb_false_r.
Qed.

Lemma _use_color_plain rt cfg msg ansi_fmt output_stream :
  alwaysColorize cfg = false → isatty rt output_stream = false →
  _use_color rt cfg msg ansi_fmt output_stream = msg.
Proof. unfold _use_color. by intros -> ->. Qed.

(** C7.  On the three-line message, with the always-colorize flag set or
    the output stream a terminal, [progress] returns the three lines, the
    empty one included, each behind the ["[+] "] token, the whole between
    the escape sequence of bold green and the reset sequence; with the flag
    unset and a stream that is not a terminal it returns the prefixed lines
    alone. *)
Theorem progress_three_lines rt cfg output_stream :
  (alwaysColorize cfg = true ∨ isatty rt (default stdout output_stream) = true →
   progress rt cfg three_lines None output_stream
   = String ESC "[32;1m" +:+ "[+] a" +:+ LF +:+ "[+] " +:+ LF +:+ "[+] b"
       +:+ String ESC "[0m")
  ∧ (alwaysColorize cfg = false →
     isatty rt (default stdout output_stream) = false →
     progress rt cfg three_lines None output_stream
     = "[+] a" +:+ LF +:+ "[+] " +:+ LF +:+ "[+] b").
Proof.
  unfold progress. split.
  - intros Hforced. by rewrite _use_color_forced.
  - intros Hflag Htty. by rewrite _use_color_plain.
Qed.

(** On a terminal, with the flag set and the output redirected, and with
    neither. *)
Lemma progress_three_lines_witness :
  progress (sample_runtime true) sample_configs three_lines None None
  = String ESC "[32;1m[+] a" +:+ LF +:+ "[+] " +:+ LF +:+ "[+] b"
      +:+ String ESC "[0m"
  ∧ progress (sample_runtime false) colorizing_configs three_lines None None
    = String ESC "[32;1m[+] a" +:+ LF +:+ "[+] " +:+ LF +:+ "[+] b"
        +:+ String ESC "[0m"
  ∧ progress (sample_runtime false) sample_configs three_lines None None
    = "[+] a" +:+ LF +:+ "[+] " +:+ LF +:+ "[+] b".
Proof.
  split_and!.
  - apply (progress_three_lines (sample_runtime true) sample_configs None).
    right. reflexivity.
  - apply (progress_three_lines (sample_runtime false) colorizing_configs None).
    left. reflexivity.
  - apply (progress_three_lines (sample_runtime false) sample_configs None);
      reflexivity.
Defined.

(** ** Fatal error reporter *)

Lemma hook_depth_pos h : (0 < hook_depth h)%nat.
Proof. destruct h as [| |? ? [|[?|]]]; simpl; lia. Qed.

(** With fuel above the depth of the hook it runs, a call ends: the process
    exits with status 1, or an exception that does not derive from
    [Exception] leaves the call.  Once a hook has run, the defaults are
    [(None, None)]; without a hook they are left as they were. *)
Lemma fancyError_run_ends rt cfg fuel cm sh p :
  (opt_depth (resolve sh (snd (fancyError_defaults p))) < fuel)%nat →
  ∃ p' t,
    fancyError_run rt cfg fuel cm sh p = Some (p', t)
    ∧ (t = Exited 1 ∨ ∃ e, t = Unwinding e ∧ exc_is_Exception e = false)
    ∧ fancyError_defaults p'
      = match resolve sh (snd (fancyError_defaults p)) with
        | Some _ => (None, None)
        | None => fancyError_defaults p
        end.
Proof.
  revert cm sh p. induction fuel as [|fuel IH]; intros cm sh p Hfuel; [lia|].
  simpl. destruct (resolve sh (snd (fancyError_defaults p))) as [h|] eqn:Hh.
  2:{ eexists _, _. split_and!; [done|by left|].
      by destruct (msg_truthy _). }
  simpl in Hfuel. destruct h as [name|name e|name cm' sh'].
  - eexists _, _. split_and!; [done|by left|done].
  - destruct (exc_is_Exception e) eqn:He.
    + eexists _, _. split_and!; [done|by left|done].
    + eexists _, _. split_and!; [done|right; by eexists|done].
  - match goal with
    | |- context [fancyError_run rt cfg fuel cm' sh' ?q] =>
        destruct (IH cm' sh' q) as (p' & t & Hrun & Ht & Hd)
    end.
    { simpl. destruct sh' as [|[h'|]]; simpl in *; lia. }
    rewrite Hrun. simpl in Hd.
    assert (fancyError_defaults p' = (None, None)) as Hd'.
    { rewrite Hd. by destruct (resolve sh' None). }
    destruct Ht as [->|(e & -> & He)].
    + eexists _, _. split_and!; [done|by left|done].
    + rewrite He. eexists _, _. split_and!; [done|right; by eexists|done].
Qed.

(** More fuel changes nothing. *)
Lemma fancyError_run_more_fuel rt cfg fuel fuel' cm sh p r :
  fancyError_run rt cfg fuel cm sh p = Some r →
  (fuel ≤ fuel')%nat →
  fancyError_run rt cfg fuel' cm sh p = Some r.
Proof.
  revert fuel' cm sh p r.
  induction fuel as [|fuel IH]; intros fuel' cm sh p r; [done|].
  destruct fuel' as [|fuel']; [lia|]. intros Hrun Hle. simpl in *.
  destruct (resolve sh (snd (fancyError_defaults p))) as [h|]; [|done].
  destruct h as [name|name e|name cm' sh']; try done.
  match goal with
  | H : context [fancyError_run rt cfg fuel cm' sh' ?q] |- _ =>
      destruct (fancyError_run rt cfg fuel cm' sh' q) as [r'|] eqn:Hr; [|done];
      rewrite (IH fuel' cm' sh' q r' Hr) by lia
  end.
  done.
Qed.

(** [fancyError] always ends. *)
Lemma fancyError_ends rt cfg cm sh p :
  ∃ p' t,
    fancyError rt cfg cm sh p = Some (p', t)
    ∧ (t = Exited 1 ∨ ∃ e, t = Unwinding e ∧ exc_is_Exception e = false)
    ∧ fancyError_defaults p'
      = match resolve sh (snd (fancyError_defaults p)) with
        | Some _ => (None, None)
        | None => fancyError_defaults p
        end.
Proof.
  apply fancyError_run_ends.
  destruct sh as [|v]; simpl; lia.
Qed.

(** When no hook raises anything but an [Exception], the process exits
    with status 1. *)
Lemma fancyError_run_exits rt cfg fuel cm sh p p' t :
  fancyError_run rt cfg fuel cm sh p = Some (p', t) →
  match resolve sh (snd (fancyError_defaults p)) with
  | Some h => raises_only_Exception h = true
  | None => True
  end →
  t = Exited 1.
Proof.
  revert cm sh p p' t.
  induction fuel as [|fuel IH]; intros cm sh p p' t; [done|]. simpl.
  destruct (resolve sh (snd (fancyError_defaults p))) as [h|]; [|by intros [= _ <-]].
  destruct h as [name|name e|name cm' sh']; simpl.
  - by intros [= _ <-].
  - intros Hrun He. rewrite He in Hrun. by injection Hrun as _ <-.
  - destruct (fancyError_run _ _ _ _ _ _) as [[q t']|] eqn:Hrun; [|done].
    intros Hrun' Hsafe. apply IH in Hrun as ->.
    + by injection Hrun' as _ <-.
    + simpl. by destruct sh' as [|[h'|]].
Qed.

(** X24.  What the guard of [fancyError] leaves true of calls without
    arguments.
    - A call without arguments, made in a state whose defaults are
      [(None, None)], skips the message and the hook: it writes the
      traceback and exits with status 1.
    - A call with a hook assigns the defaults before it invokes the hook;
      when the hook calls back without arguments, the inner call writes the
      traceback and exits: the hook is invoked once and the message is
      written once.
    - After a call to which a hook was passed the defaults are
      [(None, None)], so a later call without arguments is as in the first
      item.
    - Every call ends, in an exit with status 1 or in an exception that
      does not derive from [Exception] leaving it; an exit it is when the
      hooks raise nothing but [Exception]s. *)
Theorem fancyError_one_shot rt cfg :
  (∀ p, fancyError_defaults p = (None, None) →
        fancyError rt cfg Omitted Omitted p
        = Some (stderr_write (fancyErrorString rt) p, Exited 1))
  ∧ (∀ critical_msg name p,
       ∃ p', fancyError rt cfg (Passed critical_msg)
               (Passed (Some (HookCallsFancyError name Omitted Omitted))) p
             = Some (p', Exited 1)
           ∧ trace p'
             = trace (report rt cfg critical_msg p)
               ++ [DefaultsAssigned None None; HookInvoked name;
                   StderrWrite (fancyErrorString rt)])
  ∧ (∀ critical_msg cleanupHook p p' t,
       fancyError rt cfg critical_msg (Passed (Some cleanupHook)) p = Some (p', t) →
       fancyError_defaults p' = (None, None)
       ∧ fancyError rt cfg Omitted Omitted p'
         = Some (stderr_write (fancyErrorString rt) p', Exited 1))
  ∧ (∀ critical_msg singleton_hook p,
       ∃ p' t,
         fancyError rt cfg critical_msg singleton_hook p = Some (p', t)
         ∧ (t = Exited 1 ∨ ∃ e, t = Unwinding e ∧ exc_is_Exception e = false)
         ∧ (match resolve singleton_hook (snd (fancyError_defaults p)) with
            | Some h => raises_only_Exception h = true
            | None => True
            end → t = Exited 1)).
Proof.
  assert (∀ p, fancyError_defaults p = (None, None) →
            fancyError rt cfg Omitted Omitted p
            = Some (stderr_write (fancyErrorString rt) p, Exited 1)) as Hnoarg.
  { intros p Hp. unfold fancyError. rewrite Hp. simpl. by rewrite Hp. }
  split_and!.
  - exact Hnoarg.
  - intros critical_msg name p. eexists. split.
    + unfold fancyError.
      eapply (fancyError_run_more_fuel rt cfg 2); [reflexivity|simpl; lia].
    + simpl. unfold report, stderr_write, emit. simpl.
      by rewrite <- !app_assoc.
  - intros critical_msg cleanupHook p p' t Hrun.
    destruct (fancyError_ends rt cfg critical_msg (Passed (Some cleanupHook)) p)
      as (q & t' & Hrun' & _ & Hd).
    rewrite Hrun in Hrun'. injection Hrun' as <- <-. simpl in Hd.
    split; [done|by apply Hnoarg].
  - intros critical_msg singleton_hook p.
    destruct (fancyError_ends rt cfg critical_msg singleton_hook p)
      as (p' & t & Hrun & Ht & _).
    exists p', t. split_and!; try done.
    intros Hsafe. unfold fancyError in Hrun. by eapply fancyError_run_exits.
Qed.

(** The process as imported, then after a first call whose cleanup hook
    fails. *)
Lemma fancyError_one_shot_witness :
  fancyError (sample_runtime false) sample_configs Omitted Omitted initial_process
  = Some (stderr_write (fancyErrorString (sample_runtime false)) initial_process,
          Exited 1)
  ∧ fancyError (sample_runtime false) sample_configs Omitted Omitted
      after_failed_cleanup
    = Some (stderr_write (fancyErrorString (sample_runtime false))
              after_failed_cleanup,
            Exited 1).
Proof.
  split.
  - apply (proj1 (fancyError_one_shot (sample_runtime false) sample_configs)).
    reflexivity.
  - eapply (proj1 (proj2 (proj2
              (fancyError_one_shot (sample_runtime false) sample_configs)))
              (Passed (Some "first"))
              (HookRaises "cleanup" (ValueError "no such directory"))
              initial_process after_failed_cleanup (Exited 1)).
    reflexivity.
Defined.

(** C6, on the code: a first call supplies a message and the cleanup
    hook, and the hook calls back passing a message and the cleanup again.
    The defaults have been assigned by then, yet the inner call writes its
    message and invokes the cleanup a second time: the shutdown happens
    twice. *)
Lemma fancyError_reentrant_call_with_arguments :
  trace ∘ fst
    <$> fancyError (sample_runtime false) sample_configs
          (Passed (Some "first")) (Passed (Some cleanup_reports_again))
          initial_process
  = Some [ StderrWrite "(!) first";
           StderrWrite ("Traceback" +:+ LF);
           DefaultsAssigned None None;
           HookInvoked "cleanup";
           StderrWrite "(!) again";
           StderrWrite ("Traceback" +:+ LF);
           DefaultsAssigned None None;
           HookInvoked "cleanup" ].
Proof. reflexivity. Qed.

(** A hook that raises [SystemExit] keeps the call from reaching its
    exit. *)
Example fancyError_hook_exits :
  snd <$> fancyError (sample_runtime false) sample_configs
            (Passed (Some "first")) (Passed (Some cleanup_exits)) initial_process
  = Some (Unwinding (Exc "SystemExit" false "0")).
Proof. reflexivity. Qed.

(** A hook that raises an [Exception] is reported, and the process exits. *)
Example fancyError_hook_fails :
  fancyError (sample_runtime false) sample_configs
    (Passed (Some "first"))
    (Passed (Some (HookRaises "cleanup" (ValueError "no such directory"))))
    initial_process
  = Some (after_failed_cleanup, Exited 1)
  ∧ stderr_of (trace after_failed_cleanup)
    = [ "(!) first"; "Traceback" +:+ LF;
        "(!) fancyError: `singleton_hook` caused exception: no such directory" ].
Proof. split; reflexivity. Qed.

(** * Further properties *)

(** ** The builder on an arbitrary function *)

Lemma returns_str_dec f kind : returns_str f kind ∨ ¬ returns_str f kind.
Proof.
  unfold returns_str. destruct (f kind) as [[| | |s|]|].
  4: left; by eexists.
  all: right; by intros [? [=]].
Qed.

(** Either the function returns a string on every kind of the list, or
    there is a first kind on which it does not. *)
Lemma first_failure_split f kinds :
  (∀ k, k ∈ kinds → returns_str f k)
  ∨ ∃ pre kind post,
      kinds = pre ++ kind :: post
      ∧ (∀ k, k ∈ pre → returns_str f k)
      ∧ ¬ returns_str f kind.
Proof.
  induction kinds as [|a kinds IH].
  - left. intros k Hk. by apply elem_of_nil in Hk.
  - destruct (returns_str_dec f a) as [Ha|Ha].
    + destruct IH as [Hall|(pre & kind & post & -> & Hpre & Hkind)].
      * left. intros k [->|Hk]%elem_of_cons; auto.
      * right. exists (a :: pre), kind, post. split_and!; try done.
        intros k [->|Hk]%elem_of_cons; auto.
    + right. exists [], a, kinds. split_and!; try done.
      intros k Hk. by apply elem_of_nil in Hk.
Qed.

(** The two ways a call on a function can go. *)
Lemma makeCustomSpecificationsMapping_cases cfg f :
  (∃ m : dict,
      (∀ k, k ∈ AVAILABLE_KINDS → returns_str f k)
      ∧ makeCustomSpecificationsMapping cfg (Function f)
        = (AVAILABLE_KINDS, Returns m)
      ∧ dom m = {[ _closure_map_sanity_check cfg ]} ∪ kind_keys
      ∧ (∀ key, key ∉ VStr <$> AVAILABLE_KINDS →
           m !! key
           = ({[ _closure_map_sanity_check cfg := _closure_map_sanity_check cfg ]}
                : dict) !! key)
      ∧ (∀ k v, k ∈ AVAILABLE_KINDS → f k = Returns v → m !! VStr k = Some v))
  ∨ (∃ pre kind post e,
        AVAILABLE_KINDS = pre ++ kind :: post
        ∧ (∀ k, k ∈ pre → returns_str f k)
        ∧ ¬ returns_str f kind
        ∧ makeCustomSpecificationsMapping cfg (Function f)
          = (pre ++ [kind], Raises e)
        ∧ ((∃ msg, e = RuntimeError (unable_msg msg))
           ∨ (exc_is_Exception e = false ∧ f kind = Raises e))).
Proof.
  unfold makeCustomSpecificationsMapping.
  destruct (first_failure_split f AVAILABLE_KINDS)
    as [Hall|(pre & kind & post & Hsplit & Hpre & Hkind)].
  - left.
    destruct (fill_kinds_strings f AVAILABLE_KINDS []
      {[ _closure_map_sanity_check cfg := _closure_map_sanity_check cfg ]} Hall)
      as (m & Hm & Hdom & Hout & Hin).
    exists m. rewrite Hm. rewrite dom_singleton_L in Hdom.
    split_and!; done.
  - right. rewrite Hsplit, fill_kinds_first_failure by done.
    destruct (f kind) as [v|e] eqn:Hf; simpl.
    + eexists pre, kind, post, _. split_and!; try done. left. by eexists.
    + destruct (exc_is_Exception e) eqn:He.
      * eexists pre, kind, post, _. split_and!; try done. left. by eexists.
      * eexists pre, kind, post, _. split_and!; try done. by right.
Qed.

(** X1.  The builder returns a dictionary exactly when the function
    returns a string on every known kind. *)
Theorem makeCustomSpecificationsMapping_succeeds_iff cfg f :
  (∃ calls m, makeCustomSpecificationsMapping cfg (Function f)
              = (calls, Returns m))
  ↔ (∀ kind, kind ∈ AVAILABLE_KINDS → ∃ s, f kind = Returns (VStr s)).
Proof.
  destruct (makeCustomSpecificationsMapping_cases cfg f)
    as [(m & Hall & Hm & _)|(pre & kind & post & e & Hsplit & _ & Hkind & Hm & _)].
  - split; [done|]. intros _. by exists AVAILABLE_KINDS, m.
  - split.
    + intros (calls & m & Hm'). rewrite Hm in Hm'. discriminate.
    + intros Hall. destruct Hkind. apply Hall. rewrite Hsplit.
      apply elem_of_app. right. left.
Qed.

(** X2.  Whatever it is given, the builder invokes its argument on an
    initial segment of the known kinds, in their order: never twice on a
    kind, never on anything else, and on all of them when it returns. *)
Theorem makeCustomSpecificationsMapping_calls cfg func :
  fst (makeCustomSpecificationsMapping cfg func) `prefix_of` AVAILABLE_KINDS
  ∧ NoDup (fst (makeCustomSpecificationsMapping cfg func))
  ∧ (∀ m, snd (makeCustomSpecificationsMapping cfg func) = Returns m →
          fst (makeCustomSpecificationsMapping cfg func) = AVAILABLE_KINDS).
Proof.
  assert (fst (makeCustomSpecificationsMapping cfg func) `prefix_of` AVAILABLE_KINDS
          ∧ (∀ m, snd (makeCustomSpecificationsMapping cfg func) = Returns m →
               fst (makeCustomSpecificationsMapping cfg func) = AVAILABLE_KINDS))
    as [Hprefix Hall].
  { destruct func as [f|ty call]; [|split; [by eexists|done]].
    destruct (makeCustomSpecificationsMapping_cases cfg f)
      as [(m & _ & -> & _)|(pre & kind & post & e & Hsplit & _ & _ & -> & _)];
      simpl.
    - split; [by exists []|done].
    - split; [|done]. exists post. by rewrite Hsplit, <- app_assoc. }
  split_and!; try done.
  destruct Hprefix as [rest Hrest].
  pose proof AVAILABLE_KINDS_NoDup as Hnodup.
  rewrite Hrest in Hnodup. by apply NoDup_app in Hnodup as [? _].
Qed.



(** X4.  A dictionary the builder returned, once registered, gives back for
    every known kind the string the function returned for it. *)
Theorem specificationsForKind_of_built_mapping cfg cfg' f calls (m : dict) kind :
  makeCustomSpecificationsMapping cfg (Function f) = (calls, Returns m) →
  customSpecificationsMapping cfg' = Some m →
  kind ∈ AVAILABLE_KINDS →
  ∃ s, f kind = Returns (VStr s)
       ∧ specificationsForKind cfg' kind = Returns (VStr s).
Proof.
  intros Hrun Hreg Hkind.
  destruct (makeCustomSpecificationsMapping_cases cfg f)
    as [(m' & Hall & Hm & _ & _ & Hin)|(pre & k & post & e & _ & _ & _ & Hm & _)];
    rewrite Hrun in Hm; [|done].
  injection Hm as _ <-.
  destruct (Hall kind Hkind) as [s Hs]. exists s. split; [done|].
  pose proof (Hin kind _ Hkind Hs) as Hlookup.
  unfold specificationsForKind, subscript. rewrite Hreg. simpl.
  rewrite bool_decide_eq_false_2; [by rewrite Hlookup|].
  intros ->. by rewrite lookup_empty in Hlookup.
Qed.

(** X5.  With a dictionary of the builder registered, a kind that is
    neither a known kind nor the marker is a lookup error. *)
Theorem specificationsForKind_unknown_kind cfg cfg' f calls (m : dict) kind :
  makeCustomSpecificationsMapping cfg (Function f) = (calls, Returns m) →
  customSpecificationsMapping cfg' = Some m →
  kind ∉ AVAILABLE_KINDS →
  VStr kind ≠ _closure_map_sanity_check cfg →
  specificationsForKind cfg' kind = Raises (KeyError (VStr kind)).
Proof.
  intros Hrun Hreg Hkind Hmarker.
  pose proof (makeCustomSpecificationsMapping_truthy _ _ _ _ Hrun) as Htruthy.
  destruct (makeCustomSpecificationsMapping_cases cfg f)
    as [(m' & _ & Hm & _ & Hout & _)|(pre & k & post & e & _ & _ & _ & Hm & _)];
    rewrite Hrun in Hm; [|done].
  injection Hm as _ <-.
  unfold specificationsForKind, subscript. rewrite Hreg, Htruthy.
  rewrite Hout.
  - by rewrite lookup_singleton_ne.
  - intros (k & [= ->] & Hk)%list_elem_of_fmap. done.
Qed.

(** X6.  When the marker of [configs] is the string of a known kind, the
    entry written for that kind replaces the stamp: the dictionary has 13
    entries, and under the marker it holds what the function returned. *)
Theorem makeCustomSpecificationsMapping_marker_collision cfg f kind :
  kind ∈ AVAILABLE_KINDS →
  _closure_map_sanity_check cfg = VStr kind →
  (∀ k, k ∈ AVAILABLE_KINDS → ∃ s, f k = Returns (VStr s)) →
  ∃ m : dict,
    makeCustomSpecificationsMapping cfg (Function f) = (AVAILABLE_KINDS, Returns m)
    ∧ size m = 13
    ∧ ∀ v, f kind = Returns v → m !! _closure_map_sanity_check cfg = Some v.
Proof.
  intros Hkind Hmarker Hall.
  destruct (makeCustomSpecificationsMapping_cases cfg f)
    as [(m & _ & Hm & Hdom & _ & Hin)|(pre & k & post & e & Hsplit & _ & Hk & _)].
  - exists m. split_and!; [done| |].
    + rewrite <- size_dom, Hdom, <- kind_keys_size. f_equal.
      apply subseteq_union_1_L, singleton_subseteq_l.
      rewrite Hmarker. unfold kind_keys.
      by apply elem_of_list_to_set, list_elem_of_fmap_2.
    + intros v Hv. rewrite Hmarker. by apply Hin.
  - destruct Hk. apply Hall. rewrite Hsplit. apply elem_of_app. right. left.
Qed.

Lemma built_mapping_built :
  makeCustomSpecificationsMapping sample_configs (Function members_for_all)
  = (AVAILABLE_KINDS, Returns built_mapping).
Proof.
  destruct (makeCustomSpecificationsMapping_cases sample_configs members_for_all)
    as [(m & _ & Hm & _)|(pre & k & post & e & Hsplit & _ & Hk & _)].
  - unfold built_mapping. by rewrite Hm.
  - destruct Hk. by eexists.
Defined.

Lemma specificationsForKind_of_built_mapping_witness :
  ∃ s, members_for_all "typedef" = Returns (VStr s)
       ∧ specificationsForKind built_configs "typedef" = Returns (VStr s).
Proof.
  apply (specificationsForKind_of_built_mapping sample_configs built_configs
           members_for_all AVAILABLE_KINDS built_mapping "typedef").
  - exact built_mapping_built.
  - reflexivity.
  - apply (bool_decide_unpack _). vm_compute. reflexivity.
Defined.

Lemma specificationsForKind_unknown_kind_witness :
  specificationsForKind built_configs "page" = Raises (KeyError (VStr "page")).
Proof.
  apply (specificationsForKind_unknown_kind sample_configs built_configs
           members_for_all AVAILABLE_KINDS built_mapping "page").
  - exact built_mapping_built.
  - reflexivity.
  - apply (bool_decide_unpack _). vm_compute. reflexivity.
  - discriminate.
Defined.

Lemma makeCustomSpecificationsMapping_marker_collision_witness :
  ∃ m : dict,
    makeCustomSpecificationsMapping colliding_configs (Function members_for_all)
    = (AVAILABLE_KINDS, Returns m)
    ∧ size m = 13
    ∧ ∀ v, members_for_all "file" = Returns v → m !! VStr "file" = Some v.
Proof.
  apply (makeCustomSpecificationsMapping_marker_collision colliding_configs
           members_for_all "file").
  - apply (bool_decide_unpack _). vm_compute. reflexivity.
  - reflexivity.
  - intros k _. by eexists.
Defined.

(** ** The kind classifier on arbitrary strings *)

(** X7.  An empty dictionary registered as the custom mapping counts as
    none: every kind gets what it gets with nothing registered, and no kind
    is a lookup error. *)
Theorem specificationsForKind_empty_dict_unregistered cfg cfg' kind :
  customSpecificationsMapping cfg = Some ∅ →
  customSpecificationsMapping cfg' = None →
  specificationsForKind cfg kind = specificationsForKind cfg' kind
  ∧ ∃ modifiers, specificationsForKind cfg kind = Returns (VList modifiers).
Proof.
  intros Hempty Hnone. unfold specificationsForKind.
  rewrite Hempty, Hnone. simpl.
  rewrite bool_decide_eq_true_2 by done. simpl.
  split; [done|]. destruct (_ || _); by eexists.
Qed.

Lemma specificationsForKind_empty_dict_unregistered_witness :
  specificationsForKind empty_mapping_configs "page"
  = specificationsForKind sample_configs "page"
  ∧ ∃ modifiers,
      specificationsForKind empty_mapping_configs "page"
      = Returns (VList modifiers).
Proof.
  apply (specificationsForKind_empty_dict_unregistered
           empty_mapping_configs sample_configs "page"); reflexivity.
Defined.

(** X8.  The directive of a kind is never empty, whatever the kind, and
    different kinds have different directives. *)
Theorem kindAsBreatheDirective_injective kind kind' :
  kindAsBreatheDirective kind ≠ ""
  ∧ (kindAsBreatheDirective kind = kindAsBreatheDirective kind' → kind = kind').
Proof.
  split; [done|]. unfold kindAsBreatheDirective. apply (inj (String.app _)).
Qed.

Lemma upper_char_idemp c : upper_char (upper_char c) = upper_char c.
Proof. destruct c as [[] [] [] [] [] [] [] []]; reflexivity. Qed.

Lemma lower_char_idemp c : lower_char (lower_char c) = lower_char c.
Proof. destruct c as [[] [] [] [] [] [] [] []]; reflexivity. Qed.

Lemma upper_char_not_d c : Ascii.eqb (upper_char c) "d" = false.
Proof. destruct c as [[] [] [] [] [] [] [] []]; reflexivity. Qed.

Lemma lower_idemp s : lower (lower s) = lower s.
Proof.
  induction s as [|c s IH]; simpl; [done|]. by rewrite lower_char_idemp, IH.
Qed.

Lemma capitalize_idemp s : capitalize (capitalize s) = capitalize s.
Proof.
  destruct s as [|c s]; simpl; [done|].
  by rewrite upper_char_idemp, lower_idemp.
Qed.

Lemma capitalize_not_dir s : String.eqb (capitalize s) "dir" = false.
Proof. destruct s as [|c s]; simpl; [done|]. by rewrite upper_char_not_d. Qed.

(** X9.  [qualifyKind] returns the empty string for the empty string only:
    a kind it does not know is capitalized like the others, not refused. *)
Theorem qualifyKind_empty_iff kind : qualifyKind kind = "" ↔ kind = "".
Proof.
  unfold qualifyKind. split.
  - destruct (String.eqb kind "dir"); [done|]. by destruct kind.
  - by intros ->.
Qed.

Lemma upper_char_ascii c :
  (code c <? 128)%N = true → (code (upper_char c) <? 128)%N = true.
Proof. destruct c as [[] [] [] [] [] [] [] []]; vm_compute; congruence. Qed.

Lemma lower_char_ascii c :
  (code c <? 128)%N = true → (code (lower_char c) <? 128)%N = true.
Proof. destruct c as [[] [] [] [] [] [] [] []]; vm_compute; congruence. Qed.

Lemma lower_ascii s : is_ascii s = true → is_ascii (lower s) = true.
Proof.
  induction s as [|c s IH]; [done|]. simpl.
  intros [Hc Hs]%andb_true_iff. by rewrite lower_char_ascii, IH.
Qed.

Lemma capitalize_ascii s : is_ascii s = true → is_ascii (capitalize s) = true.
Proof.
  destruct s as [|c s]; [done|]. simpl.
  intros [Hc Hs]%andb_true_iff. by rewrite upper_char_ascii, lower_ascii.
Qed.

(** X10.  On ASCII text, where [capitalize] is [str.capitalize], a
    qualifier is ASCII text again and qualifying it changes nothing. *)
Theorem qualifyKind_idempotent kind :
  is_ascii kind = true →
  is_ascii (qualifyKind kind) = true
  ∧ qualifyKind (qualifyKind kind) = qualifyKind kind.
Proof.
  intros Hascii. unfold qualifyKind.
  destruct (String.eqb kind "dir"); [done|].
  split; [by apply capitalize_ascii|].
  by rewrite capitalize_not_dir, capitalize_idemp.
Qed.

Lemma qualifyKind_idempotent_witness :
  is_ascii (qualifyKind "enumValue") = true
  ∧ qualifyKind (qualifyKind "enumValue") = qualifyKind "enumValue".
Proof. apply (qualifyKind_idempotent "enumValue"). reflexivity. Defined.

(** ** Lines, prefixes and indentation *)

Lemma append_assoc a b c : (a +:+ b) +:+ c = a +:+ (b +:+ c).
Proof.
  induction a as [|x a IH]; [done|]. by rewrite !append_cons, IH.
Qed.

Lemma length_append a b :
  String.length (a +:+ b) = (String.length a + String.length b)%nat.
Proof.
  induction a as [|x a IH]; [done|]. rewrite append_cons. simpl. by rewrite IH.
Qed.

Lemma join_app l1 l2 : join (l1 ++ l2) = join l1 +:+ join l2.
Proof.
  induction l1 as [|x l1 IH]; [done|].
  change ((x :: l1) ++ l2) with (x :: (l1 ++ l2)).
  by rewrite !join_cons, IH, append_assoc.
Qed.

Lemma split_lines_break c rest :
  is_linebreak c = true →
  split_lines (String c rest)
  = match rest with
    | String c' rest' =>
        if (code c =? 13)%N && (code c' =? 10)%N
        then (EmptyString, String c (String c' EmptyString)) :: split_lines rest'
        else (EmptyString, String c EmptyString) :: split_lines rest
    | EmptyString => [(EmptyString, String c EmptyString)]
    end.
Proof. intros H. simpl. by rewrite H. Qed.

Lemma split_lines_char c rest :
  is_linebreak c = false →
  split_lines (String c rest)
  = match split_lines rest with
    | [] => [(String c EmptyString, EmptyString)]
    | (line, ending) :: lines => (String c line, ending) :: lines
    end.
Proof. intros H. simpl. by rewrite H. Qed.

Lemma split_lines_nil s : split_lines s = [] → s = "".
Proof.
  destruct s as [|c rest]; [done|].
  destruct (is_linebreak c) eqn:Hc.
  - rewrite split_lines_break by done.
    destruct rest as [|c' rest']; [done|]. by destruct (_ && _).
  - rewrite split_lines_char by done.
    by destruct (split_lines rest) as [|[line ending] lines].
Qed.

(** A line feed ends a line whatever follows it: the lines of a text cut
    after a line feed are the lines of the two parts. *)
Lemma split_lines_LF a b :
  split_lines (a +:+ LF +:+ b) = split_lines (a +:+ LF) ++ split_lines b.
Proof.
  assert (split_lines (LF +:+ b) = split_lines LF ++ split_lines b) as Hnil.
  { by destruct b. }
  assert (∀ n a, (String.length a ≤ n)%nat →
            split_lines (a +:+ LF +:+ b)
            = split_lines (a +:+ LF) ++ split_lines b) as H; [|by eapply H].
  clear a. induction n as [|n IH]; intros [|c rest] Hlen; simpl in Hlen;
    try done; try lia.
  rewrite !append_cons. destruct (is_linebreak c) eqn:Hc.
  - rewrite !split_lines_break by done.
    destruct rest as [|c' rest'].
    + change ("" +:+ LF +:+ b) with (String "010" b).
      change ("" +:+ LF) with (String "010" "").
      cbv beta iota.
      change (code "010" =? 10)%N with true. rewrite andb_true_r.
      destruct (code c =? 13)%N; [done|].
      change (String "010" b) with (LF +:+ b).
      change (String "010" "") with LF.
      by rewrite Hnil.
    + rewrite !append_cons. destruct (_ && _).
      * rewrite IH; [done|simpl in Hlen; lia].
      * rewrite <- !append_cons. rewrite IH; [done|lia].
  - rewrite !split_lines_char by done.
    rewrite IH by lia.
    destruct (split_lines (rest +:+ LF)) as [|[line ending] lines] eqn:Hrest.
    + apply split_lines_nil in Hrest. by destruct rest.
    + done.
Qed.

Lemma splitlines_LF keepends a b :
  splitlines keepends (a +:+ LF +:+ b)
  = splitlines keepends (a +:+ LF) ++ splitlines keepends b.
Proof. unfold splitlines. by rewrite split_lines_LF, map_app. Qed.

Lemma split_lines_single s :
  no_linebreak s = true → s ≠ "" → split_lines s = [(s, "")].
Proof.
  induction s as [|c rest IH]; [done|]. simpl.
  intros [Hc Hrest]%andb_true_iff _. apply negb_true_iff in Hc.
  rewrite Hc. destruct rest as [|c' rest']; [done|].
  by rewrite IH.
Qed.

Lemma split_lines_single_LF s :
  no_linebreak s = true → split_lines (s +:+ LF) = [(s, LF)].
Proof.
  induction s as [|c rest IH]; [done|].
  change (no_linebreak (String c rest))
    with (negb (is_linebreak c) && no_linebreak rest).
  intros [Hc Hrest]%andb_true_iff. apply negb_true_iff in Hc.
  rewrite append_cons, split_lines_char by done. by rewrite IH.
Qed.

Lemma map_prefix_lines token lines :
  String.length (join ((λ line, token +:+ line) <$> lines))
  = (String.length (join lines) + String.length token * length lines)%nat.
Proof.
  induction lines as [|x lines IH]; [simpl; lia|].
  rewrite fmap_cons, !join_cons, !length_append, IH. simpl. lia.
Qed.

(** X11.  With an empty prefix, [indent] gives the text back, whatever the
    predicate: cutting into lines and joining them loses nothing. *)
Theorem indent_empty_prefix text predicate : indent text "" predicate = text.
Proof.
  unfold indent.
  rewrite <- (join_splitlines text) at 2. f_equal.
  induction (splitlines true text) as [|line lines IH]; [done|].
  simpl. rewrite IH. by destruct (default _ predicate line).
Qed.

(** X12.  [prefix] lengthens a message by one token for each of its lines;
    an empty message has no line and stays empty. *)
Theorem prefix_length token msg :
  String.length (prefix token msg)
  = (String.length msg
     + String.length token * length (splitlines true msg))%nat.
Proof.
  rewrite prefix_every_line, map_prefix_lines. by rewrite join_splitlines.
Qed.

(** X13.  [prefix] works line by line: the prefixed form of a text cut after
    a line feed is the prefixed forms of the two parts, one after the
    other. *)
Theorem prefix_after_LF token a b :
  prefix token (a +:+ LF +:+ b) = prefix token (a +:+ LF) +:+ prefix token b.
Proof.
  rewrite !prefix_every_line, splitlines_LF, fmap_app. apply join_app.
Qed.

Lemma all_space_append a b : all_space (a +:+ b) = all_space a && all_space b.
Proof.
  induction a as [|x a IH]; [done|].
  rewrite append_cons. simpl. by rewrite IH, andb_assoc.
Qed.

Lemma all_space_join lines : all_space (join lines) = forallb all_space lines.
Proof.
  induction lines as [|x lines IH]; [done|].
  by rewrite join_cons, all_space_append, IH.
Qed.

Lemma lstrip_all_space s : all_space s = true → lstrip s = "".
Proof.
  induction s as [|c s IH]; [done|]. simpl.
  intros [Hc Hs]%andb_true_iff. rewrite Hc. by apply IH.
Qed.

Lemma strip_all_space s : all_space s = true → strip s = "".
Proof. intros Hs. unfold strip. by rewrite lstrip_all_space. Qed.

(** X14.  With its default predicate [indent] leaves a text of white space
    alone, however many lines it has. *)
Theorem indent_whitespace_only text token :
  all_space text = true → indent text token None = text.
Proof.
  intros Hspace. unfold indent. simpl.
  assert (forallb all_space (splitlines true text) = true) as Hlines.
  { by rewrite <- all_space_join, join_splitlines. }
  rewrite <- (join_splitlines text) at 2. f_equal.
  induction (splitlines true text) as [|line lines IH]; [done|].
  simpl in Hlines. apply andb_true_iff in Hlines as [Hline Hlines].
  simpl. rewrite IH by done. by rewrite strip_all_space.
Qed.

Lemma indent_whitespace_only_witness :
  indent ("  " +:+ LF +:+ String "009"%char LF) "[+] " None
  = "  " +:+ LF +:+ String "009"%char LF.
Proof.
  apply (indent_whitespace_only ("  " +:+ LF +:+ String "009"%char LF) "[+] ").
  reflexivity.
Defined.

(** X15.  On a message of one line, [prefix] puts the token in front once,
    and keeps the line feed that ends the message. *)
Theorem prefix_single_line token msg :
  no_linebreak msg = true →
  (msg ≠ "" → prefix token msg = token +:+ msg)
  ∧ prefix token (msg +:+ LF) = token +:+ msg +:+ LF.
Proof.
  intros Hmsg. rewrite !prefix_every_line. unfold splitlines. split.
  - intros Hne. rewrite split_lines_single by done. simpl.
    unfold join. simpl. by rewrite append_nil_r.
  - by rewrite split_lines_single_LF.
Qed.

Lemma prefix_single_line_witness :
  prefix "[~] " "reading the index" = "[~] reading the index"
  ∧ prefix "[~] " ("reading the index" +:+ LF)
    = "[~] reading the index" +:+ LF.
Proof.
  destruct (prefix_single_line "[~] " "reading the index") as [Hone Hfed];
    [reflexivity|].
  split; [by apply Hone|exact Hfed].
Defined.

Lemma exclaim_first_line err_msg :
  split_lines ("(!) " +:+ err_msg)
  = match split_lines err_msg with
    | [] => [("(!) ", "")]
    | (line, ending) :: lines => ("(!) " +:+ line, ending) :: lines
    end.
Proof.
  change ("(!) " +:+ err_msg)
    with (String "(" (String "!" (String ")" (String " " err_msg)))).
  rewrite (split_lines_char "(") by done.
  rewrite (split_lines_char "!") by done.
  rewrite (split_lines_char ")") by done.
  rewrite (split_lines_char " ") by done.
  by destruct (split_lines err_msg) as [|[line ending] lines].
Qed.

(** X16.  On a message of one line, [exclaim] puts the token in front, also
    when the message is empty, and drops the line feed that ends the
    message. *)
Theorem exclaim_single_line err_msg :
  no_linebreak err_msg = true →
  exclaim err_msg = "(!) " +:+ err_msg
  ∧ exclaim (err_msg +:+ LF) = "(!) " +:+ err_msg.
Proof.
  intros Hmsg. unfold exclaim, splitlines. rewrite !exclaim_first_line. split.
  - destruct err_msg as [|c rest]; [done|].
    by rewrite split_lines_single.
  - by rewrite split_lines_single_LF.
Qed.

Lemma exclaim_single_line_witness :
  exclaim "" = "(!) " ∧ exclaim ("" +:+ LF) = "(!) ".
Proof. apply (exclaim_single_line ""). reflexivity. Defined.

(** X17.  Whatever the message, what [exclaim] returns starts with the
    token: it is never empty. *)
Theorem exclaim_starts_with_token err_msg :
  String.prefix "(!) " (exclaim err_msg) = true.
Proof.
  unfold exclaim, splitlines. rewrite exclaim_first_line.
  destruct (split_lines err_msg) as [|[line ending] lines]; [done|].
  simpl. by destruct (map _ lines), line.
Qed.

(** ** Console helpers and their streams *)

(** X18.  Each helper looks at its own stream: with the always-colorize
    flag unset, standard output redirected and standard error a terminal,
    [progress] and [info] return the prefixed text alone while [critical]
    returns it in bold red. *)
Theorem console_helpers_streams rt cfg msg :
  alwaysColorize cfg = false →
  isatty rt stdout = false →
  isatty rt stderr = true →
  progress rt cfg msg None None = prefix "[+] " msg
  ∧ info rt cfg msg None None = prefix "[~] " msg
  ∧ critical rt cfg msg None None
    = String ESC "[31;1m" +:+ prefix "(!) " msg +:+ String ESC "[0m".
Proof.
  intros Hflag Hout Herr. unfold progress, info, critical. simpl.
  rewrite !_use_color_plain by done.
  rewrite _use_color_forced by auto. done.
Qed.

Lemma console_helpers_streams_witness :
  progress stdout_redirected sample_configs "done" None None = "[+] done"
  ∧ info stdout_redirected sample_configs "done" None None = "[~] done"
  ∧ critical stdout_redirected sample_configs "done" None None
    = String ESC "[31;1m" +:+ "(!) done" +:+ String ESC "[0m".
Proof.
  apply (console_helpers_streams stdout_redirected sample_configs "done");
    reflexivity.
Defined.

(** ** The fatal error reporter, further *)

(** X19.  [fancyErrorString] always has a text to give: the fixed notice
    when the traceback cannot be formatted, and the traceback itself,
    unchanged and followed by a line feed, when the highlighter is missing
    or raises. *)
Theorem fancyErrorString_fallback rt :
  (∀ e, format_exc rt = Raises e →
        fancyErrorString rt = "CRITICAL: could not extract traceback.format_exc!")
  ∧ (∀ err, format_exc rt = Returns err →
       pygments_highlight rt = None
       ∨ (∃ highlight e,
            pygments_highlight rt = Some highlight
            ∧ highlight (err +:+ LF) "py3tb" "console" = Raises e) →
       fancyErrorString rt = err +:+ LF).
Proof.
  unfold fancyErrorString, __fancy. split.
  - by intros e ->.
  - intros err -> [->|(highlight & e & -> & Hraises)]; [done|].
    change (String "010" "") with LF. by rewrite Hraises.
Qed.

Lemma fancyErrorString_fallback_witness :
  fancyErrorString failing_highlighter = "Traceback" +:+ LF.
Proof.
  apply (proj2 (fancyErrorString_fallback failing_highlighter) "Traceback").
  - reflexivity.
  - right. eexists _, _. split; reflexivity.
Defined.

(** X20.  The defaults of [fancyError] are [(None, None)] after every call
    that starts with them so: the assignment under the guard never changes
    them. *)
Theorem fancyError_defaults_invariant rt cfg critical_msg singleton_hook p p' t :
  fancyError_defaults p = (None, None) →
  fancyError rt cfg critical_msg singleton_hook p = Some (p', t) →
  fancyError_defaults p' = (None, None).
Proof.
  intros Hp Hrun.
  destruct (fancyError_ends rt cfg critical_msg singleton_hook p)
    as (q & t' & Hrun' & _ & Hd).
  rewrite Hrun in Hrun'. injection Hrun' as <- <-.
  rewrite Hd. by destruct (resolve _ _).
Qed.

Lemma fancyError_defaults_invariant_witness :
  fancyError_defaults after_failed_cleanup = (None, None).
Proof.
  apply (fancyError_defaults_invariant (sample_runtime false) sample_configs
           (Passed (Some "first"))
           (Passed (Some (HookRaises "cleanup" (ValueError "no such directory"))))
           initial_process after_failed_cleanup (Exited 1));
    reflexivity.
Defined.

(** X21.  An [Exception] raised by the hook does not leave the call: it is
    written to standard error behind the reporter's own heading, after the
    message and the traceback, and the process exits with status 1. *)
Theorem fancyError_hook_exception_reported rt cfg critical_msg name e p :
  exc_is_Exception e = true →
  ∃ p', fancyError rt cfg (Passed critical_msg)
          (Passed (Some (HookRaises name e))) p
        = Some (p', Exited 1)
      ∧ trace p'
        = trace (report rt cfg critical_msg p)
          ++ [ DefaultsAssigned None None; HookInvoked name;
               StderrWrite (critical rt cfg (hook_exception_msg e) None None) ].
Proof.
  intros He. unfold fancyError. simpl. rewrite He. eexists. split; [done|].
  simpl. unfold report, stderr_write, emit. simpl. by rewrite <- !app_assoc.
Qed.

Lemma fancyError_hook_exception_reported_witness :
  ∃ p', fancyError (sample_runtime false) sample_configs (Passed (Some "first"))
          (Passed (Some (HookRaises "cleanup" (ValueError "no such directory"))))
          initial_process
        = Some (p', Exited 1)
      ∧ trace p'
        = trace (report (sample_runtime false) sample_configs (Some "first")
                   initial_process)
          ++ [ DefaultsAssigned None None; HookInvoked "cleanup";
               StderrWrite
                 (critical (sample_runtime false) sample_configs
                    (hook_exception_msg (ValueError "no such directory"))
                    None None) ].
Proof.
  apply (fancyError_hook_exception_reported (sample_runtime false) sample_configs
           (Some "first") "cleanup" (ValueError "no such directory")
           initial_process).
  reflexivity.
Defined.

(** An empty message is no message: the call does what it does when [None]
    is passed in its place. *)
Remark fancyError_empty_message rt cfg singleton_hook p :
  fancyError rt cfg (Passed (Some "")) singleton_hook p
  = fancyError rt cfg (Passed None) singleton_hook p.
Proof. reflexivity. Qed.

Lemma fancyError_run_trace rt cfg fuel cm sh p p' t :
  fancyError_run rt cfg fuel cm sh p = Some (p', t) →
  ∃ evs, trace p' = trace p ++ evs
         ∧ StderrWrite (fancyErrorString rt) ∈ evs.
Proof.
  revert cm sh p p' t.
  induction fuel as [|fuel IH]; intros cm sh p p' t; [done|]. simpl.
  set (p1 := if msg_truthy (resolve cm (fancyError_defaults p).1)
             then stderr_write _ p else p).
  assert (∃ evs1, trace p1 = trace p ++ evs1) as [evs1 Hp1].
  { unfold p1. destruct (msg_truthy _); simpl; [by eexists|].
    exists []. by rewrite app_nil_r. }
  assert (∀ q more,
            trace q = trace p1 ++ StderrWrite (fancyErrorString rt) :: more →
            ∃ evs, trace q = trace p ++ evs
                   ∧ StderrWrite (fancyErrorString rt) ∈ evs) as Hdone.
  { intros q more ->. rewrite Hp1, <- app_assoc. eexists. split; [done|].
    apply elem_of_app. right. left. }
  destruct (resolve sh (fancyError_defaults p).2) as [h|].
  2:{ intros [= <- _]. by apply (Hdone _ []). }
  destruct h as [name|name e|name cm' sh'].
  - intros [= <- _]. eapply Hdone. simpl. by rewrite <- !app_assoc.
  - destruct (exc_is_Exception e); intros [= <- _]; eapply Hdone; simpl;
      by rewrite <- !app_assoc.
  - destruct (fancyError_run rt cfg fuel cm' sh' _) as [[q t']|] eqn:Hrun;
      [|done].
    apply IH in Hrun as (evs & Hq & _). simpl in Hq.
    rewrite <- !app_assoc in Hq. simpl in Hq.
    destruct t' as [status|e].
    + intros [= <- _]. by eapply Hdone.
    + destruct (exc_is_Exception e); intros [= <- _]; eapply Hdone; simpl.
      * by rewrite Hq, <- !app_assoc.
      * done.
Qed.

(** X22.  A call never takes back what was written before it, and it
    always writes the traceback, with or without a message or a hook. *)
Theorem fancyError_writes_traceback rt cfg critical_msg singleton_hook p p' t :
  fancyError rt cfg critical_msg singleton_hook p = Some (p', t) →
  ∃ evs, trace p' = trace p ++ evs
         ∧ StderrWrite (fancyErrorString rt) ∈ evs.
Proof. apply fancyError_run_trace. Qed.

Lemma fancyError_writes_traceback_witness :
  ∃ evs, trace after_failed_cleanup = trace initial_process ++ evs
         ∧ StderrWrite (fancyErrorString (sample_runtime false)) ∈ evs.
Proof.
  apply (fancyError_writes_traceback (sample_runtime false) sample_configs
           (Passed (Some "first"))
           (Passed (Some (HookRaises "cleanup" (ValueError "no such directory"))))
           initial_process after_failed_cleanup (Exited 1)).
  reflexivity.
Defined.

(** ** AnsiColors.printAllColorsToConsole *)

(** X23.  The listing leaves out an attribute for its value, not for its
    name: every attribute whose name does not start with two underscores
    and whose value is a string other than ["BOLD"], ["DIM"], ["UNDER"] and
    ["INV"] gets its line, the four modifiers of the class among them. *)
Theorem printAllColorsToConsole_prints cls_dict elem color_fmt :
  (elem, StrAttr color_fmt) ∈ cls_dict →
  String.prefix "__" elem = false →
  color_fmt ∉ ["BOLD"; "DIM"; "UNDER"; "INV"] →
  color_line color_fmt elem ∈ printAllColorsToConsole cls_dict.
Proof.
  intros Hin Hname Hfmt. unfold printAllColorsToConsole.
  apply list_elem_of_omap. exists (elem, StrAttr color_fmt). split; [done|].
  rewrite Hname. simpl.
  repeat (apply not_elem_of_cons in Hfmt as [?%String.eqb_neq Hfmt]).
  by repeat match goal with H : String.eqb _ _ = false |- _ => rewrite H; clear H end.
Qed.

Lemma printAllColorsToConsole_prints_witness :
  color_line "1m" "BOLD" ∈ printAllColorsToConsole AnsiColors_attributes.
Proof.
  apply (printAllColorsToConsole_prints AnsiColors_attributes "BOLD" "1m").
  - left.
  - reflexivity.
  - apply (bool_decide_unpack _). vm_compute. reflexivity.
Defined.

(** On the class itself: one line for each of its 44 constants, none for
    the method. *)
Example printAllColorsToConsole_AnsiColors :
  length (printAllColorsToConsole AnsiColors_attributes) = 44
  ∧ head (printAllColorsToConsole AnsiColors_attributes)
    = Some (String ESC "[1mAnsiColors.BOLD" +:+ String ESC "[0m").
Proof. split; reflexivity. Qed.
